(** * model_helper: transfer-learning helpers over a tensor engine

    A shallow embedding of [model_helper.py]: [create_model],
    [save_checkpoint], [load_checkpoint], [validate], [train] and
    [predict].  The Python code is an orchestration layer over an
    autograd/tensor engine; the engine's numerical kernels are collected in
    the class [Engine] and every function of the module is written once,
    for an arbitrary engine.

    Conventions of the embedding.
    - Python numbers that the module itself computes with (losses,
      accuracies, probabilities) are exact rationals [Q]; the rounding of
      machine floats is not modelled.
    - A Python call that may raise returns a [result]; an object that the
      call mutates in place is threaded through as the state of the [Py]
      monad, so the mutation survives a raised exception.
    - Parameter tensors are a shape together with an opaque engine
      storage; activations (network outputs) are lists of rows.
    - Device placement and dtype casts ([.cuda()], [.cpu()], [.float()],
      [.long()], [Variable], [.data], [.numpy()]) do not change values and
      are the identity. *)

From Stdlib Require Import ZArith QArith Qround Lqa Lia.
From stdpp Require Import base option list sorting strings pretty gmap.

Local Open Scope string_scope.
Local Open Scope list_scope.

(** ** Python exceptions and results *)

Inductive PyKey :=
| KInt (i : Z)
| KStr (s : string).

Inductive PyError :=
| ZeroDivisionError
| KeyError (key : PyKey)
| FileNotFoundError (path : string)
| UnpicklingError (path : string)
| OSError (path : string)
| ValueError (msg : string)
| IndexError
| RuntimeError (msg : string).

Inductive result (A : Type) :=
| Ok (a : A)
| Raise (e : PyError).
Arguments Ok {A} a.
Arguments Raise {A} e.

(** The state-and-exception monad: [S] is the object mutated in place. *)
Definition Py (S A : Type) : Type := S → S * result A.

Definition ret {S A} (a : A) : Py S A := λ s, (s, Ok a).
Definition raise {S A} (e : PyError) : Py S A := λ s, (s, Raise e).
Definition bind {S A B} (c : Py S A) (k : A → Py S B) : Py S B :=
  λ s, match c s with
       | (s', Ok a) => k a s'
       | (s', Raise e) => (s', Raise e)
       end.
Definition get {S} : Py S S := λ s, (s, Ok s).
Definition modify {S} (f : S → S) : Py S unit := λ s, (f s, Ok tt).
Definition lift {S A} (r : result A) : Py S A := λ s, (s, r).

Declare Scope py_scope.
Delimit Scope py_scope with py.
Notation "x <- c ;; k" := (bind c (λ x, k))
  (at level 100, c at next level, k at level 200, right associativity) : py_scope.
Notation "c ;; k" := (bind c (λ _, k))
  (at level 100, k at level 200, right associativity) : py_scope.

(** [for x in xs: acc = body(acc, x)], stopping at the first exception. *)
Fixpoint foldM {S A X} (body : A → X → Py S A) (acc : A) (xs : list X) : Py S A :=
  match xs with
  | [] => ret acc
  | x :: xs' => bind (body acc x) (λ acc', foldM body acc' xs')
  end.

(** Run a computation on a component of a larger state. *)
Definition zoom {S T A} (proj : T → S) (inj : S → T → T) (c : Py S A) : Py T A :=
  λ t, let '(s', r) := c (proj t) in (inj s' t, r).

(** ** Python dictionaries

    A [dict] keeps its entries in insertion order; assigning to a key that
    is present overwrites the value in place. *)

Definition pydict (K V : Type) : Type := list (K * V).

Section PyDict.
Context {K V : Type} `{EqDecision K}.

Fixpoint dict_get (d : pydict K V) (k : K) : option V :=
  match d with
  | [] => None
  | (k', v) :: d' => if decide (k = k') then Some v else dict_get d' k
  end.

Fixpoint dict_set (d : pydict K V) (k : K) (v : V) : pydict K V :=
  match d with
  | [] => [(k, v)]
  | (k', v') :: d' =>
      if decide (k = k') then (k, v) :: d' else (k', v') :: dict_set d' k v
  end.

Definition dict_keys (d : pydict K V) : list K := d.*1.
Definition dict_values (d : pydict K V) : list V := d.*2.
Definition dict_len (d : pydict K V) : nat := length d.
End PyDict.

(** [for k, v in l: acc[v] = k] *)
Definition swap_entries {K V} `{EqDecision V} (acc : pydict V K) (l : list (K * V))
  : pydict V K :=
  fold_left (λ acc kv, dict_set acc kv.2 kv.1) l acc.

(** ** Tensors, parameters and modules *)

Section Data.
Context {Storage : Type}.

Record Tensor := mkTensor { shape : list nat; storage : Storage }.

Record Param := mkParam {
  data : Tensor;
  requires_grad : bool;
  grad : option Tensor
}.

Definition set_requires_grad (b : bool) (p : Param) : Param :=
  mkParam (data p) b (grad p).
Definition set_data (t : Tensor) (p : Param) : Param :=
  mkParam t (requires_grad p) (grad p).
Definition set_grad (g : option Tensor) (p : Param) : Param :=
  mkParam (data p) (requires_grad p) g.
End Data.
Arguments Tensor : clear implicits.
Arguments Param : clear implicits.

Inductive Layer :=
| Linear (in_features out_features : nat)
| ReLU
| LogSoftmax (dim : nat).

Inductive Classifier :=
| Single (l : Layer)
| Sequential (layers : list (string * Layer)).

(** Width of the last [Linear] layer: the number of scores per example. *)
Definition layer_out (l : Layer) (w : nat) : nat :=
  match l with
  | Linear _ o => o
  | _ => w
  end.

Definition out_features (c : Classifier) : nat :=
  match c with
  | Single l => layer_out l 0
  | Sequential layers => fold_left (λ w nl, layer_out nl.2 w) layers 0
  end.

Section Module.
Context {Storage : Type}.

Record Module := mkModule {
  parameters : gmap string (Param Storage);
  buffers : gmap string (Tensor Storage);
  classifier : Classifier;
  training : bool
}.

Definition set_parameters (ps : gmap string (Param Storage)) (m : Module) : Module :=
  mkModule ps (buffers m) (classifier m) (training m).
Definition set_buffers (bs : gmap string (Tensor Storage)) (m : Module) : Module :=
  mkModule (parameters m) bs (classifier m) (training m).
Definition set_training (b : bool) (m : Module) : Module :=
  mkModule (parameters m) (buffers m) (classifier m) b.

(** [module.state_dict()]: parameter data and buffers by name. *)
Definition state_dict (m : Module) : gmap string (Tensor Storage) :=
  (data <$> parameters m) ∪ buffers m.

(** A model is a module carrying the attribute [class_to_idx]. *)
Record Model := mkModel {
  net : Module;
  class_to_idx : pydict Z string
}.

Definition set_net (n : Module) (m : Model) : Model :=
  mkModel n (class_to_idx m).
End Module.
Arguments Module : clear implicits.
Arguments Model : clear implicits.

(** ** The tensor engine

    Everything the module delegates to torch, torchvision, PIL and
    [utility.process_image].  No law is assumed about these operations. *)

Class Engine := {
  Storage : Type;
  RawImage : Type;                      (* a decoded image file *)
  Image : Type;                         (* a preprocessed example *)
  Rng : Type;                           (* state of the weight initialiser *)
  Criterion : Type;
  NLLLoss : Criterion;
  (* weights and running statistics of [models.densenet121(pretrained=True)] *)
  pretrained_parameters : gmap string (Tensor Storage);
  pretrained_buffers : gmap string (Tensor Storage);
  (* initial weight and bias of [nn.Linear(in_features, out_features)] *)
  linear_init : nat → nat → Rng → Storage * Storage * Rng;
  (* entry [i][j] of the log-probabilities computed for a batch *)
  net_output : bool → Classifier → gmap string (Tensor Storage) →
               list Image → nat → nat → Q;
  (* running statistic [name] after a forward pass in training mode *)
  batchnorm_update : gmap string (Tensor Storage) → list Image →
                     string → Tensor Storage → Storage;
  fexp : Q → Q;
  criterion_call : Criterion → list (list Q) → list Z → Q;
  (* gradient of the loss with respect to parameter [name] *)
  backward_grad : Criterion → list Z → bool → Classifier →
                  gmap string (Tensor Storage) → list Image → string → Storage;
  storage_zero : Storage → Storage;
  storage_add : Storage → Storage → Storage;
  (* one Adam update: learning rate, step number, moments, value, gradient *)
  adam_update : Q → nat → Storage → Storage → Storage → Storage →
                Storage * Storage * Storage;
  (* [utility.process_image] *)
  process_image : RawImage → Image
}.

Section ModelHelper.
Context `{E : Engine}.

Local Abbreviation tensor := (Tensor Storage).
Local Abbreviation param := (Param Storage).
Local Abbreviation module := (Module Storage).
Local Abbreviation model := (Model Storage).

(** *** Optimizer and checkpoint records *)

Record AdamState := mkAdamState {
  step : nat;
  exp_avg : tensor;
  exp_avg_sq : tensor
}.

(** [opt_params] names the parameters the optimizer was built from; the
    optimizer passed to [train] is the one [create_model] returned with
    the model, so the names refer to that model's parameters. *)
Record Optimizer := mkOptimizer {
  opt_params : list string;
  opt_lr : Q;
  opt_state : gmap string AdamState
}.

(** [optimizer.state_dict()] *)
Record OptimizerStateDict := mkOptimizerStateDict {
  sd_state : gmap string AdamState;
  sd_param_groups : list (Q * list string)
}.

Definition optimizer_state_dict (o : Optimizer) : OptimizerStateDict :=
  mkOptimizerStateDict (opt_state o) [(opt_lr o, opt_params o)].

Record Checkpoint := mkCheckpoint {
  ck_epoch : Z;
  ck_arch : string;
  ck_state_dict : gmap string tensor;
  ck_optimizer : OptimizerStateDict;
  ck_class_to_idx : pydict Z string
}.

Definition set_ck_optimizer (o : OptimizerStateDict) (c : Checkpoint) : Checkpoint :=
  mkCheckpoint (ck_epoch c) (ck_arch c) (ck_state_dict c) o (ck_class_to_idx c).

Inductive File :=
| Pickled (state : Checkpoint)
| Picture (img : RawImage)
| Garbage.

(** A printed line, recorded by its format and its arguments. *)
Inductive Line :=
| CheckpointSaved (file_path arch : string) (epochs : Z)
| CheckpointLoaded (file_path arch : string) (epochs : Z)
| TrainingLog (epoch epochs : Z) (training_loss test_loss accuracy : Q).

Record World := mkWorld {
  fs : gmap string File;
  stdout : list Line;
  rng : Rng
}.

Definition print (l : Line) : Py World unit :=
  modify (λ w, mkWorld (fs w) (stdout w ++ [l])%list (rng w)).

Definition torch_save (state : Checkpoint) (file_path : string) : Py World unit :=
  modify (λ w, mkWorld (<[file_path := Pickled state]> (fs w)) (stdout w) (rng w)).

Definition torch_load (file_path : string) : Py World Checkpoint :=
  λ w, match fs w !! file_path with
       | Some (Pickled state) => (w, Ok state)
       | Some _ => (w, Raise (UnpicklingError file_path))
       | None => (w, Raise (FileNotFoundError file_path))
       end.

Definition Image_open (image_path : string) (w : World) : result RawImage :=
  match fs w !! image_path with
  | Some (Picture img) => Ok img
  | Some _ => Raise (OSError image_path)
  | None => Raise (FileNotFoundError image_path)
  end.

(** *** Building the network *)

(** [models.densenet121(pretrained=True)]: a fresh module is in training
    mode and all its parameters require gradients. *)
Definition models_densenet121 : module :=
  mkModule ((λ t, mkParam t true None) <$> pretrained_parameters)
           pretrained_buffers
           (Single (Linear 1024 1000))
           true.

(** [for param in model.parameters(): param.requires_grad = False] *)
Definition freeze (m : module) : module :=
  set_parameters (set_requires_grad false <$> parameters m) m.

(** A submodule before it is attached: its layers and its parameters
    under their local names ([fc1.weight], ...). *)
Record Submodule := mkSubmodule {
  sub_layers : list (string * Layer);
  sub_params : list (string * param)
}.

Definition nn_Linear (in_features out_features : nat) : Py World (param * param) :=
  λ w, let '(weight, bias, r) := linear_init in_features out_features (rng w) in
       (mkWorld (fs w) (stdout w) r,
        Ok (mkParam (mkTensor [out_features; in_features] weight) true None,
            mkParam (mkTensor [out_features] bias) true None)).

Fixpoint nn_Sequential (layers : list (string * Layer)) : Py World Submodule :=
  match layers with
  | [] => ret (mkSubmodule [] [])
  | (name, l) :: rest =>
      (own <- match l with
              | Linear i o =>
                  wb <- nn_Linear i o ;;
                  ret [(name +:+ ".weight", wb.1); (name +:+ ".bias", wb.2)]
              | _ => ret []
              end ;;
       sub <- nn_Sequential rest ;;
       ret (mkSubmodule ((name, l) :: sub_layers sub) (own ++ sub_params sub)%list))%py
  end.

(** The submodule [nn.Sequential(OrderedDict([fc1, relu, fc2, output]))]
    with given initial storages. *)
Definition head (o : nat) (w1 b1 w2 b2 : Storage) : Submodule :=
  mkSubmodule
    [("fc1", Linear 1024 500); ("relu", ReLU); ("fc2", Linear 500 o); ("output", LogSoftmax 1)]
    [("fc1.weight", mkParam (mkTensor [500; 1024]%nat w1) true None);
     ("fc1.bias", mkParam (mkTensor [500]%nat b1) true None);
     ("fc2.weight", mkParam (mkTensor [o; 500]%nat w2) true None);
     ("fc2.bias", mkParam (mkTensor [o]%nat b2) true None)].

Definition under_classifier (name : string) : Prop :=
  String.prefix "classifier." name = true.

Global Instance under_classifier_dec name : Decision (under_classifier name).
Proof. unfold under_classifier. apply _. Defined.

(** [model.classifier = sub]: the old classifier's entries disappear and
    the new ones appear under the prefix [classifier.]. *)
Definition set_classifier (sub : Submodule) (m : module) : module :=
  mkModule
    (list_to_map (prod_map (String.append "classifier.") id <$> sub_params sub)
       ∪ filter (λ kv, ¬ under_classifier kv.1) (parameters m))
    (filter (λ kv, ¬ under_classifier kv.1) (buffers m))
    (Sequential (sub_layers sub))
    (training m).

(** [optim.Adam(params, lr)]: refuses an empty parameter list. *)
Definition optim_Adam (params : list string) (lr : Q) : result Optimizer :=
  match params with
  | [] => Raise (ValueError "optimizer got an empty parameter list")
  | _ => Ok (mkOptimizer params lr ∅)
  end.

(** [{class_to_idx[k]: k for k in class_to_idx}] *)
Definition swap_keys_and_items (class_to_idx : pydict string Z) : pydict Z string :=
  fold_left (λ acc k, match dict_get class_to_idx k with
                      | Some v => dict_set acc v k
                      | None => acc
                      end)
            (dict_keys class_to_idx) [].

Definition create_model (arch : string) (class_to_idx : pydict string Z)
  : Py World (model * Optimizer * Criterion) :=
  (let model := models_densenet121 in
   let model := freeze model in
   let output_size := 102%nat in
   classifier <- nn_Sequential [("fc1", Linear 1024 500);
                                ("relu", ReLU);
                                ("fc2", Linear 500 output_size);
                                ("output", LogSoftmax 1)] ;;
   let model := set_classifier classifier model in
   let parameters :=
     (filter (λ np, requires_grad np.2 = true) (map_to_list (parameters model))).*1 in
   optimizer <- lift (optim_Adam parameters (1 # 1000)) ;;
   let criterion := NLLLoss in
   let model := mkModel model (swap_keys_and_items class_to_idx) in
   ret (model, optimizer, criterion))%py.
(** *** Checkpoints *)

(** [own_state[name].copy_(t)] for one entry of a loaded state dictionary;
    a name the module does not have is an unexpected key. *)
Definition copy_entry (name : string) (t : tensor) : Py module unit :=
  λ m, match parameters m !! name with
       | Some p =>
           if decide (shape (data p) = shape t)
           then (set_parameters (<[name := set_data t p]> (parameters m)) m, Ok tt)
           else (m, Raise (RuntimeError ("While copying the parameter named " +:+ name)))
       | None =>
           match buffers m !! name with
           | Some b =>
               if decide (shape b = shape t)
               then (set_buffers (<[name := t]> (buffers m)) m, Ok tt)
               else (m, Raise (RuntimeError ("While copying the parameter named " +:+ name)))
           | None => (m, Raise (KeyError (KStr name)))
           end
       end.

(** [module.load_state_dict(sd)] with [strict=True]: every loaded entry
    is copied in place, then own names absent from [sd] are reported. *)
Definition load_state_dict (sd : gmap string tensor) : Py module unit :=
  (foldM (λ _ kv, copy_entry kv.1 kv.2) tt (map_to_list sd) ;;
   own <- get ;;
   match filter (λ name, sd !! name = None) (map_to_list (state_dict own)).*1 with
   | [] => ret tt
   | name :: _ => raise (KeyError (KStr name))
   end)%py.

Definition save_checkpoint (file_path : string) (model : model)
    (optimizer : Optimizer) (total_epochs : Z) : Py World unit :=
  (let state := mkCheckpoint total_epochs
                             "densenet121"
                             (state_dict (net model))
                             (optimizer_state_dict optimizer)
                             (class_to_idx model) in
   torch_save state file_path ;;
   print (CheckpointSaved file_path (ck_arch state) (ck_epoch state)))%py.

Definition load_checkpoint (file_path : string) : Py World model :=
  (let model := models_densenet121 in
   classifier <- nn_Sequential [("fc1", Linear 1024 500);
                                ("relu", ReLU);
                                ("fc2", Linear 500 102);
                                ("output", LogSoftmax 1)] ;;
   let model := set_classifier classifier model in
   state <- torch_load file_path ;;
   model <- lift (match load_state_dict (ck_state_dict state) model with
                  | (model, Ok _) => Ok model
                  | (_, Raise e) => Raise e
                  end) ;;
   let model := mkModel model (ck_class_to_idx state) in
   print (CheckpointLoaded file_path (ck_arch state) (ck_epoch state)) ;;
   ret model)%py.

(** The names and shapes of a module's state. *)
Definition layout (m : module) : gmap string (list nat) := shape <$> state_dict m.

(** A module has the architecture of this program when it has the layers
    and the state layout of the network [load_checkpoint] builds before it
    reads the file: the pretrained DenseNet with the 1024-500-102 head. *)
Definition has_architecture (m : module) : Prop :=
  ∃ w1 b1 w2 b2,
    classifier m = classifier (set_classifier (head 102 w1 b1 w2 b2) models_densenet121) ∧
    layout m = layout (set_classifier (head 102 w1 b1 w2 b2) models_densenet121).

(** *** Autograd variables and the forward pass *)

(** What a variable remembers of the computation that produced it. *)
Record Graph := mkGraph {
  g_training : bool;
  g_classifier : Classifier;
  g_state : gmap string tensor;
  g_inputs : list Image;
  g_loss : option (Criterion * list Z)
}.

Record AutogradVariable (A : Type) := mkVariable {
  var_data : A;
  volatile : bool;
  grad_fn : option Graph
}.
Arguments mkVariable {A} var_data volatile grad_fn.
Arguments var_data {A} _.
Arguments volatile {A} _.
Arguments grad_fn {A} _.

Definition Variable_ {A} (t : A) (volatile : bool) : AutogradVariable A :=
  mkVariable t volatile None.

Definition cuda {A} (t : A) : A := t.
Definition cpu {A} (t : A) : A := t.
Definition float {A} (t : A) : A := t.
Definition long {A} (t : A) : A := t.
Definition numpy {A} (t : A) : A := t.
Definition from_numpy {A} (t : A) : A := t.

Definition unsqueeze0 {A} (v : AutogradVariable A) : AutogradVariable (list A) :=
  mkVariable [var_data v] (volatile v) (grad_fn v).

Definition any_requires_grad (m : module) : bool :=
  bool_decide (Exists (λ np, requires_grad np.2 = true) (map_to_list (parameters m))).

(** The log-probabilities of a batch in the given mode: one row of
    [out_features] entries per example. *)
Definition network_output (mode : bool) (m : module) (xs : list Image) : list (list Q) :=
  (λ i, (λ j, net_output mode (classifier m) (state_dict m) xs i j)
          <$> seq 0 (out_features (classifier m)))
    <$> seq 0 (length xs).

(** [model.forward(inputs)].  In training mode the batch-norm running
    statistics are updated; history is kept unless the input is volatile. *)
Definition Module_forward (inputs : AutogradVariable (list Image))
  : Py module (AutogradVariable (list (list Q))) :=
  λ m, let sd := state_dict m in
       let xs := var_data inputs in
       let output := network_output (training m) m xs in
       let history :=
         if volatile inputs then None
         else if any_requires_grad m
              then Some (mkGraph (training m) (classifier m) sd xs None)
              else None in
       let m' :=
         if training m
         then set_buffers
                (map_imap (λ name b, Some (mkTensor (shape b) (batchnorm_update sd xs name b)))
                          (buffers m)) m
         else m in
       (m', Ok (mkVariable output (volatile inputs) history)).

Definition on_net {A} (c : Py module A) : Py model A := zoom net set_net c.

Definition forward (inputs : AutogradVariable (list Image)) : Py model (AutogradVariable (list (list Q))) :=
  on_net (Module_forward inputs).

Definition model_eval : Py model unit := on_net (modify (set_training false)).
Definition model_train : Py model unit := on_net (modify (set_training true)).

(** [criterion(output, labels)] *)
Definition criterion_apply (criterion : Criterion)
    (output : AutogradVariable (list (list Q))) (labels : AutogradVariable (list Z)) : AutogradVariable Q :=
  mkVariable (criterion_call criterion (var_data output) (var_data labels))
             (volatile output)
             (match grad_fn output with
              | Some g => Some (mkGraph (g_training g) (g_classifier g) (g_state g)
                                        (g_inputs g) (Some (criterion, var_data labels)))
              | None => None
              end).
(** *** Tensor operations on activations *)

Definition result_bind {A B} (r : result A) (k : A → result B) : result B :=
  match r with
  | Ok a => k a
  | Raise e => Raise e
  end.

Fixpoint mapM_result {A B} (f : A → result B) (l : list A) : result (list B) :=
  match l with
  | [] => Ok []
  | x :: l' =>
      result_bind (f x) (λ y, result_bind (mapM_result f l') (λ ys, Ok (y :: ys)))
  end.

(** A loop that touches no object: [for x in xs: acc = f(acc, x)]. *)
Fixpoint fold_result {A X} (f : A → X → result A) (acc : A) (xs : list X) : result A :=
  match xs with
  | [] => Ok acc
  | x :: xs' => result_bind (f acc x) (λ acc', fold_result f acc' xs')
  end.

Definition torch_exp (t : list (list Q)) : list (list Q) := map (map fexp) t.

(** Largest entry of a row and its position (the first one on ties). *)
Fixpoint max_from (i : nat) (best : Q * nat) (row : list Q) : Q * nat :=
  match row with
  | [] => best
  | x :: row' => max_from (S i) (if Qle_bool x best.1 then best else (x, i)) row'
  end.

Definition row_max (row : list Q) : result (Q * Z) :=
  match row with
  | [] => Raise (RuntimeError "cannot perform reduction on an empty dimension")
  | x :: row' => let '(v, i) := max_from 1 (x, 0%nat) row' in Ok (v, Z.of_nat i)
  end.

(** [t.max(1)]: the pair (values, indices) of the row maxima. *)
Definition tensor_max1 (t : list (list Q)) : result (list Q * list Z) :=
  result_bind (mapM_result row_max t) (λ rows, Ok (rows.*1, rows.*2)).

(** [a == b] on two one-dimensional integer tensors. *)
Definition tensor_eq (a b : list Z) : result (list bool) :=
  if decide (length a = length b)
  then Ok (zip_with Z.eqb a b)
  else Raise (RuntimeError "inconsistent tensor size").

Definition count_true (t : list bool) : nat := length (filter (λ b, b = true) t).

Definition Qnat (n : nat) : Q := inject_Z (Z.of_nat n).

(** [t.type_as(torch.FloatTensor()).mean()]; the mean of an empty tensor,
    which the engine reports as not-a-number, is not represented. *)
Definition tensor_mean (t : list bool) : Q :=
  (Qnat (count_true t) / Qnat (length t))%Q.

(** Stable insertion into a list sorted by decreasing value. *)
Fixpoint insert_desc (x : Q * nat) (l : list (Q * nat)) : list (Q * nat) :=
  match l with
  | [] => [x]
  | y :: l' => if Qle_bool y.1 x.1 then x :: l else y :: insert_desc x l'
  end.

(** Decreasing order on (value, position) pairs. *)
Definition desc (a b : Q * nat) : Prop := (b.1 <= a.1)%Q.

Definition sort_desc (l : list (Q * nat)) : list (Q * nat) := foldr insert_desc [] l.

Definition row_topk (k : nat) (row : list Q) : result (list Q * list Z) :=
  if decide (k ≤ length row)%nat
  then let top := take k (sort_desc (zip row (seq 0 (length row)))) in
       Ok (top.*1, Z.of_nat <$> top.*2)
  else Raise (RuntimeError "invalid argument: k not in range for dimension").

(** [t.topk(k)]: per row, the [k] largest entries in decreasing order and
    their positions. *)
Definition tensor_topk (k : nat) (t : list (list Q)) : result (list (list Q) * list (list Z)) :=
  result_bind (mapM_result (row_topk k) t) (λ rows, Ok (rows.*1, rows.*2)).

(** [t[0]] *)
Definition row0 {A} (t : list A) : result A :=
  match t with
  | [] => Raise IndexError
  | x :: _ => Ok x
  end.

(** Python's [a / n] for a number and a length. *)
Definition py_div (a : Q) (n : nat) : result Q :=
  if decide (n = 0%nat) then Raise ZeroDivisionError
  else Ok (a / Qnat n)%Q.

(** *** validate *)

Definition validate_batch (criterion : Criterion) (use_gpu : bool)
    (acc : Q * Q) (batch : list Image * list Z) : Py model (Q * Q) :=
  (let '(accuracy, test_loss) := acc in
   let '(inputs, labels) := batch in
   let inputs := if use_gpu then Variable_ (cuda (float inputs)) true
                 else Variable_ inputs true in
   let labels := if use_gpu then Variable_ (cuda (long labels)) true
                 else Variable_ labels true in
   output <- forward inputs ;;
   let test_loss := (test_loss + var_data (criterion_apply criterion output labels))%Q in
   let ps := torch_exp (var_data output) in
   top <- lift (tensor_max1 ps) ;;
   equality <- lift (tensor_eq (var_data labels) top.2) ;;
   let accuracy := (accuracy + tensor_mean equality)%Q in
   ret (accuracy, test_loss))%py.

(** [validate(model, criterion, data_loader, use_gpu)]; the model is the
    state.  A data loader is the list of its batches, and [len] of it is
    the number of batches. *)
Definition validate (criterion : Criterion)
    (data_loader : list (list Image * list Z)) (use_gpu : bool) : Py model (Q * Q) :=
  (model_eval ;;
   let accuracy := 0%Q in
   let test_loss := 0%Q in
   acc <- foldM (validate_batch criterion use_gpu) (accuracy, test_loss) data_loader ;;
   let '(accuracy, test_loss) := acc in
   mean_loss <- lift (py_div test_loss (length data_loader)) ;;
   mean_accuracy <- lift (py_div accuracy (length data_loader)) ;;
   ret (mean_loss, mean_accuracy))%py.

(** *** Accuracy, stated on the data *)

(** Position of the largest entry of a row. *)
Definition arg_max (row : list Q) : Z :=
  match row with
  | [] => 0
  | x :: row' => Z.of_nat (max_from 1 (x, 0%nat) row').2
  end.

(** The class predicted for each example of a batch in inference mode. *)
Definition predicted_classes (m : model) (inputs : list Image) : list Z :=
  arg_max <$> torch_exp (network_output false (net m) inputs).

(** Number of examples of a batch whose predicted class is the label. *)
Definition correct_predictions (m : model) (batch : list Image * list Z) : nat :=
  count_true (zip_with Z.eqb batch.2 (predicted_classes m batch.1)).

Definition batch_accuracy (m : model) (batch : list Image * list Z) : Q :=
  (Qnat (correct_predictions m batch) / Qnat (length batch.1))%Q.

Definition batch_loss (criterion : Criterion) (m : model)
    (batch : list Image * list Z) : Q :=
  criterion_call criterion (network_output false (net m) batch.1) batch.2.

Definition sumQ (l : list Q) : Q := foldr Qplus 0%Q l.

(** Mean over the batches of the per-batch fraction of correct examples. *)
Definition mean_batch_accuracy (m : model) (data_loader : list (list Image * list Z)) : Q :=
  (sumQ (batch_accuracy m <$> data_loader) / Qnat (length data_loader))%Q.

(** Correct examples over all examples, across all batches. *)
Definition example_accuracy (m : model) (data_loader : list (list Image * list Z)) : Q :=
  (Qnat (sum_list (correct_predictions m <$> data_loader))
   / Qnat (sum_list ((λ b, length b.1) <$> data_loader)))%Q.

(** Class probabilities of a single image in inference mode. *)
Definition class_probabilities (m : model) (x : Image) : list Q :=
  fexp <$> ((λ j, net_output false (classifier (net m)) (state_dict (net m)) [x] 0 j)
              <$> seq 0 (out_features (classifier (net m)))).

(** *** train *)

Record TrainState := mkTrainState {
  ts_world : World;
  ts_model : model;
  ts_optimizer : Optimizer
}.

Definition on_model {A} (c : Py model A) : Py TrainState A :=
  zoom ts_model (λ m s, mkTrainState (ts_world s) m (ts_optimizer s)) c.
Definition on_world {A} (c : Py World A) : Py TrainState A :=
  zoom ts_world (λ w s, mkTrainState w (ts_model s) (ts_optimizer s)) c.

Definition zeros_like (t : tensor) : tensor := mkTensor (shape t) (storage_zero (storage t)).
Definition tensor_add (a b : tensor) : tensor :=
  mkTensor (shape a) (storage_add (storage a) (storage b)).

Definition update_parameters (f : gmap string param → gmap string param) (m : model) : model :=
  set_net (set_parameters (f (parameters (net m))) (net m)) m.

(** [optimizer.zero_grad()]: existing gradients of the optimizer's
    parameters are reset to zero. *)
Definition optimizer_zero_grad : Py TrainState unit :=
  λ s, (mkTrainState (ts_world s)
          (update_parameters
             (λ ps, foldr (λ name, alter (λ p, set_grad (zeros_like <$> grad p) p) name)
                          ps (opt_params (ts_optimizer s)))
             (ts_model s))
          (ts_optimizer s), Ok tt).

(** [loss.backward()]: gradients are accumulated into every parameter that
    requires them; a loss without history cannot be differentiated. *)
Definition backward (loss : AutogradVariable Q) : Py model unit :=
  match grad_fn loss with
  | Some (mkGraph tr cl sd xs (Some (criterion, labels))) =>
      modify (update_parameters
                (map_imap (λ name p,
                   Some (if requires_grad p
                         then let g := mkTensor (shape (data p))
                                         (backward_grad criterion labels tr cl sd xs name) in
                              set_grad (Some (match grad p with
                                              | Some g0 => tensor_add g0 g
                                              | None => g
                                              end)) p
                         else p))))
  | _ => raise (RuntimeError "element 0 of variables does not require grad and does not have a grad_fn")
  end.

Definition adam_step_param (lr : Q) (name : string)
    (acc : gmap string AdamState * gmap string param)
  : gmap string AdamState * gmap string param :=
  let '(state, ps) := acc in
  match ps !! name with
  | Some p =>
      match grad p with
      | Some g =>
          let st := default (mkAdamState 0 (zeros_like (data p)) (zeros_like (data p)))
                            (state !! name) in
          let t := S (step st) in
          let '(m1, m2, v) := adam_update lr t (storage (exp_avg st)) (storage (exp_avg_sq st))
                                          (storage (data p)) (storage g) in
          (<[name := mkAdamState t (mkTensor (shape (data p)) m1)
                                   (mkTensor (shape (data p)) m2)]> state,
           <[name := set_data (mkTensor (shape (data p)) v) p]> ps)
      | None => acc
      end
  | None => acc
  end.

(** [optimizer.step()] *)
Definition optimizer_step : Py TrainState unit :=
  λ s, let o := ts_optimizer s in
       let '(state, ps) := fold_left (λ acc name, adam_step_param (opt_lr o) name acc)
                                     (opt_params o)
                                     (opt_state o, parameters (net (ts_model s))) in
       (mkTrainState (ts_world s)
                     (update_parameters (λ _, ps) (ts_model s))
                     (mkOptimizer (opt_params o) (opt_lr o) state), Ok tt).

Definition train_batch (criterion : Criterion) (epochs : Z)
    (validation_data_loader : list (list Image * list Z)) (use_gpu : bool)
    (print_every : Z) (epoch : Z)
    (acc : Z * Q) (batch : list Image * list Z) : Py TrainState (Z * Q) :=
  (let '(steps, running_loss) := acc in
   let '(inputs, labels) := batch in
   let steps := (steps + 1)%Z in
   let inputs := if use_gpu then Variable_ (cuda (float inputs)) false
                 else Variable_ inputs false in
   let labels := if use_gpu then Variable_ (cuda (long labels)) false
                 else Variable_ labels false in
   optimizer_zero_grad ;;
   output <- on_model (forward inputs) ;;
   let loss := criterion_apply criterion output labels in
   on_model (backward loss) ;;
   optimizer_step ;;
   let running_loss := (running_loss + var_data loss)%Q in
   if decide (steps `mod` print_every = 0)%Z
   then
     la <- on_model (validate criterion validation_data_loader use_gpu) ;;
     let '(test_loss, accuracy) := la in
     on_world (print (TrainingLog (epoch + 1) epochs
                                  (running_loss / inject_Z print_every)
                                  test_loss accuracy)) ;;
     let running_loss := 0%Q in
     on_model model_train ;;
     ret (steps, running_loss)
   else ret (steps, running_loss))%py.

(** [train(model, criterion, optimizer, epochs, training_data_loader,
    validation_data_loader, use_gpu)]; the model and the optimizer are
    the state. *)
Definition train (criterion : Criterion) (epochs : Z)
    (training_data_loader validation_data_loader : list (list Image * list Z))
    (use_gpu : bool) : Py TrainState unit :=
  (on_model model_train ;;
   let print_every := 40%Z in
   let steps := 0%Z in
   foldM (λ steps epoch,
            let running_loss := 0%Q in
            sr <- foldM (train_batch criterion epochs validation_data_loader use_gpu
                                     print_every epoch)
                        (steps, running_loss) training_data_loader ;;
            ret sr.1)
         steps (Z.of_nat <$> seq 0 (Z.to_nat epochs)) ;;
   ret tt)%py.

(** *** predict *)

(** [predict(image_path, model, use_gpu, topk)]; the model is the state
    and [w] holds the files. *)
Definition predict (w : World) (image_path : string) (use_gpu : bool) (topk : nat)
  : Py model (list Q * list string) :=
  (model_eval ;;
   image <- lift (Image_open image_path w) ;;
   let np_array := process_image image in
   let tensor := from_numpy np_array in
   let var_inputs := if use_gpu then Variable_ (cuda (float tensor)) true
                     else Variable_ tensor true in
   let var_inputs := unsqueeze0 var_inputs in
   output <- forward var_inputs ;;
   ps <- lift (tensor_topk topk (torch_exp (var_data output))) ;;
   let probs := if use_gpu then cpu ps.1 else ps.1 in
   let classes := if use_gpu then cpu ps.2 else ps.2 in
   labels <- lift (row0 (numpy classes)) ;;
   model <- get ;;
   mapped_classes <-
     lift (fold_result (λ mapped_classes label,
                          match dict_get (class_to_idx model) label with
                          | Some c => Ok (mapped_classes ++ [c])%list
                          | None => Raise (KeyError (KInt label))
                          end)
                       [] labels) ;;
   probs0 <- lift (row0 (numpy probs)) ;;
   ret (probs0, mapped_classes))%py.
End ModelHelper.

Arguments mkVariable {E A} _ _ _.
Arguments var_data {E A} _.
Arguments volatile {E A} _.
Arguments grad_fn {E A} _.
Arguments World {E}.
Arguments TrainState {E}.
Arguments Optimizer {E}.
Arguments Checkpoint {E}.

Section CheckpointOutcome.
Context `{E : Engine}.

(** The network [load_checkpoint] builds in world [w] before it reads the
    file: the pretrained DenseNet with a freshly initialised head. *)
Definition new_network (w : World) : Module Storage :=
  match nn_Sequential [("fc1", Linear 1024 500); ("relu", ReLU);
                       ("fc2", Linear 500 102); ("output", LogSoftmax 1)] w with
  | (_, Ok classifier) => set_classifier classifier models_densenet121
  | (_, Raise _) => models_densenet121
  end.

End CheckpointOutcome.

(** Which parameters of a module require gradients. *)
Definition trainable_flags `{E : Engine} (m : Module Storage) : gmap string bool :=
  requires_grad <$> parameters m.

(** Names, as seen from the model, of the parameters of the attached head. *)
Definition head_parameter_names : list string :=
  ["classifier.fc1.weight"; "classifier.fc1.bias";
   "classifier.fc2.weight"; "classifier.fc2.bias"].

(** ** A small engine on which the definitions run

    Storages are single integers, an image is the index of the class it
    depicts, and the network scores class [j] on image [x] by the distance
    between [j] and [x]. *)

Module Flowers.

Definition weights : gmap string (Tensor Z) :=
  {[ "features.conv0.weight" := mkTensor [64; 3; 7; 7]%nat 7%Z;
     "classifier.weight" := mkTensor [1000; 1024]%nat 8%Z;
     "classifier.bias" := mkTensor [1000]%nat 9%Z ]}.

Definition statistics : gmap string (Tensor Z) :=
  {[ "features.norm0.running_mean" := mkTensor [64]%nat 0%Z ]}.

Definition bias_of (sd : gmap string (Tensor Z)) : Z :=
  match sd !! "classifier.fc2.bias" with
  | Some t => storage t
  | None => 0
  end.

Definition scores (tr : bool) (cl : Classifier) (sd : gmap string (Tensor Z))
    (xs : list Z) (i j : nat) : Q :=
  inject_Z (- Z.abs (Z.of_nat j - nth i xs 0%Z) - Z.abs (bias_of sd)).

Definition nll (output : list (list Q)) (labels : list Z) : Q :=
  (foldr Qplus 0 (zip_with (λ row l, - nth (Z.to_nat l) row 0) output labels)
   / inject_Z (Z.of_nat (length labels)))%Q.

#[export] Instance engine : Engine := {|
  Storage := Z;
  RawImage := Z;
  Image := Z;
  Rng := Z;
  Criterion := unit;
  NLLLoss := tt;
  pretrained_parameters := weights;
  pretrained_buffers := statistics;
  linear_init := λ _ _ r, (r, r + 1, r + 2)%Z;
  net_output := scores;
  batchnorm_update := λ _ xs _ b, (storage b + Z.of_nat (length xs))%Z;
  fexp := λ q, (2 ^ Qfloor q)%Q;
  criterion_call := λ _, nll;
  backward_grad := λ _ _ _ _ _ _ _, 1%Z;
  storage_zero := λ _, 0%Z;
  storage_add := Z.add;
  adam_update := λ _ _ m1 m2 v g, (m1 + g, m2 + g * g, v - g)%Z;
  process_image := λ img, img
|}.

Definition world0 : World := mkWorld ∅ [] 0%Z.

(** Label mappings as an image-folder dataset produces them. *)
Definition labels_of (n : nat) : pydict string Z :=
  (λ i, (pretty (S i), Z.of_nat i)) <$> seq 0 n.

(** The model and the optimizer [create_model] returns in [world0]. *)
Definition flower_model (n : nat) : Model Z :=
  mkModel (set_classifier (head 102 0 1 2 3)%Z (freeze models_densenet121))
          (swap_keys_and_items (labels_of n)).

Definition flower_optimizer : Optimizer :=
  mkOptimizer ["classifier.fc1.weight"; "classifier.fc1.bias";
               "classifier.fc2.weight"; "classifier.fc2.bias"] (1 # 1000) ∅.

(** The optimizer after one epoch of training on one batch. *)
Definition trained_optimizer : Optimizer :=
  ts_optimizer (train tt 1 [([3], [3])]%Z [] false
                  (mkTrainState world0 (flower_model 3) flower_optimizer)).1.

(** A validation set of four examples in batches of one and three. *)
Definition validation_batches : list (list Z * list Z) :=
  [([3], [3]); ([10; 11; 12], [0; 0; 0])]%Z.

(** A disk holding one picture and the checkpoint of an [n]-class model. *)
Definition disk (n : nat) : World :=
  (save_checkpoint "flowers.pth" (flower_model n) flower_optimizer 7
     (mkWorld {[ "image.jpg" := Picture 50%Z ]} [] 4%Z)).1.

(** The model [load_checkpoint] returns from [disk n], and the world it
    leaves: the parameters are those of [flower_model n], none frozen. *)
Definition loaded_flower_model (n : nat) : Model Z :=
  mkModel (set_classifier (head 102 0 1 2 3)%Z models_densenet121)
          (class_to_idx (flower_model n)).

Definition loaded_disk (n : nat) : World :=
  mkWorld (fs (disk n))
          [CheckpointSaved "flowers.pth" "densenet121" 7;
           CheckpointLoaded "flowers.pth" "densenet121" 7]
          8%Z.

End Flowers.

(** * Properties *)

Section PyDictFacts.
Context {K V : Type} `{EqDecision K}.

Lemma dict_get_set (d : pydict K V) k v k' :
  dict_get (dict_set d k v) k' = if decide (k' = k) then Some v else dict_get d k'.
Proof.
  induction d as [|[k0 v0] d IH]; simpl.
  - done.
  - destruct (decide (k = k0)) as [->|Hne]; simpl.
    + by destruct (decide (k' = k0)).
    + rewrite IH. destruct (decide (k' = k0)) as [->|]; [|done].
      by rewrite decide_False by done.
Qed.

Lemma dict_get_Some_elem (d : pydict K V) k v :
  dict_get d k = Some v → (k, v) ∈ d.
Proof.
  induction d as [|[k0 v0] d IH]; simpl; [done|].
  destruct (decide (k = k0)) as [->|]; intros Hg.
  - injection Hg as ->. left.
  - right. by apply IH.
Qed.

Lemma dict_get_elem (d : pydict K V) k v :
  NoDup (dict_keys d) → (k, v) ∈ d → dict_get d k = Some v.
Proof.
  unfold dict_keys. induction d as [|[k0 v0] d IH]; simpl.
  - by intros _ ?%elem_of_nil.
  - intros [Hnotin Hnd]%NoDup_cons [Heq|Hin]%elem_of_cons.
    + injection Heq as -> ->. by rewrite decide_True.
    + rewrite decide_False; [by apply IH|].
      intros ->. apply Hnotin. by apply (list_elem_of_fmap_2 fst) in Hin.
Qed.
End PyDictFacts.

Section SwapFacts.
Context {K V : Type} `{EqDecision K, EqDecision V}.

Lemma swap_entries_get (l : list (K * V)) acc i k :
  NoDup (l.*2) →
  dict_get (swap_entries acc l) i = Some k ↔
  (k, i) ∈ l ∨ (¬ i ∈ l.*2) ∧ dict_get acc i = Some k.
Proof.
  revert acc. induction l as [|[k0 v0] l IH]; intros acc Hnd; simpl.
  - split; [intros; right; split; [apply not_elem_of_nil|done]|].
    by intros [?%elem_of_nil|[_ ?]].
  - apply NoDup_cons in Hnd as [Hnotin Hnd].
    unfold swap_entries in *. simpl. rewrite IH by done.
    rewrite dict_get_set. rewrite elem_of_cons, not_elem_of_cons.
    destruct (decide (i = v0)) as [->|Hne].
    + split.
      * intros [Hin|[_ Heq]].
        -- exfalso. apply Hnotin. by apply (list_elem_of_fmap_2 snd) in Hin.
        -- injection Heq as ->. by left; left.
      * intros [[Heq|Hin]|[[? _] _]]; [|  |done].
        -- injection Heq as ->. by right.
        -- exfalso. apply Hnotin. by apply (list_elem_of_fmap_2 snd) in Hin.
    + split.
      * intros [Hin|[? ?]]; [by left; right|by right].
      * intros [[Heq|Hin]|[[_ ?] ?]]; [congruence|by left|by right].
Qed.

Lemma swap_by_keys (d : pydict K V) (l : list (K * V)) acc :
  (∀ k v, (k, v) ∈ l → dict_get d k = Some v) →
  fold_left (λ acc k, match dict_get d k with
                      | Some v => dict_set acc v k
                      | None => acc
                      end) l.*1 acc
  = swap_entries acc l.
Proof.
  revert acc. induction l as [|[k0 v0] l IH]; intros acc Hl; simpl; [done|].
  rewrite (Hl k0 v0) by left. apply IH. intros k v Hin. apply Hl. by right.
Qed.
End SwapFacts.

Section Properties.
Context `{E : Engine}.

Local Abbreviation tensor := (Tensor Storage).
Local Abbreviation param := (Param Storage).
Local Abbreviation module := (Module Storage).
Local Abbreviation model := (Model Storage).

(** ** create_model *)

(** The head both [create_model] and [load_checkpoint] attach; its initial
    storages depend on the state of the initialiser only. *)
Lemma nn_Sequential_head_rng o r :
  ∃ w1 b1 w2 b2 r', ∀ f s,
    nn_Sequential [("fc1", Linear 1024 500); ("relu", ReLU);
                   ("fc2", Linear 500 o); ("output", LogSoftmax 1)] (mkWorld f s r)
    = (mkWorld f s r', Ok (head o w1 b1 w2 b2)).
Proof.
  unfold nn_Sequential, nn_Linear, bind, ret. simpl.
  destruct (linear_init 1024 500 r) as [[w1 b1] r1]. simpl.
  destruct (linear_init 500 o r1) as [[w2 b2] r2]. simpl.
  by exists w1, b1, w2, b2, r2.
Qed.

Lemma nn_Sequential_head o w :
  ∃ w1 b1 w2 b2 r,
    nn_Sequential [("fc1", Linear 1024 500); ("relu", ReLU);
                   ("fc2", Linear 500 o); ("output", LogSoftmax 1)] w
    = (mkWorld (fs w) (stdout w) r, Ok (head o w1 b1 w2 b2)).
Proof.
  destruct w as [f s r].
  destruct (nn_Sequential_head_rng o r) as (w1 & b1 & w2 & b2 & r' & Hhead).
  exists w1, b1, w2, b2, r'. apply Hhead.
Qed.

Lemma attached_head_lookup o w1 b1 w2 b2 (m : module) :
  let ps := parameters (set_classifier (head o w1 b1 w2 b2) m) in
  ps !! "classifier.fc1.weight" = Some (mkParam (mkTensor [500; 1024]%nat w1) true None) ∧
  ps !! "classifier.fc1.bias" = Some (mkParam (mkTensor [500]%nat b1) true None) ∧
  ps !! "classifier.fc2.weight" = Some (mkParam (mkTensor [o; 500]%nat w2) true None) ∧
  ps !! "classifier.fc2.bias" = Some (mkParam (mkTensor [o]%nat b2) true None).
Proof.
  unfold set_classifier, head. simpl.
  repeat split; apply lookup_union_Some_l;
    by rewrite ?lookup_insert_ne, lookup_insert_eq by done.
Qed.

Lemma create_model_returns arch (M : pydict string Z) w :
  ∃ w1 b1 w2 b2 r optimizer,
    create_model arch M w
    = (mkWorld (fs w) (stdout w) r,
       Ok (mkModel (set_classifier (head 102 w1 b1 w2 b2) (freeze models_densenet121))
                   (swap_keys_and_items M),
           optimizer, NLLLoss)).
Proof.
  unfold create_model, bind.
  destruct (nn_Sequential_head 102 w) as (w1 & b1 & w2 & b2 & r & ->).
  exists w1, b1, w2, b2, r.
  set (m := set_classifier _ _).
  destruct (filter _ (map_to_list (parameters m))) as [|np l] eqn:Hf.
  - exfalso.
    assert (("classifier.fc1.weight", mkParam (mkTensor [500; 1024]%nat w1) true None)
            ∈ filter (λ np : string * param, requires_grad np.2 = true)
                     (map_to_list (parameters m))) as Hin.
    { apply list_elem_of_filter. split; [done|].
      apply elem_of_map_to_list, (attached_head_lookup 102). }
    rewrite Hf in Hin. by apply elem_of_nil in Hin.
  - by eexists.
Qed.
(** C2 (as the code has it): whatever the label mapping, [create_model]
    returns a model whose classifier head is 102 wide, the last linear
    layer having a [102; 500] weight and a [102] bias; the width equals
    the number of classes of the mapping exactly when the mapping has 102
    entries. *)
Theorem create_model_output_width arch (M : pydict string Z) w :
  ∃ w' model optimizer criterion,
    create_model arch M w = (w', Ok (model, optimizer, criterion)) ∧
    out_features (classifier (net model)) = 102%nat ∧
    shape ∘ data <$> parameters (net model) !! "classifier.fc2.weight" = Some [102; 500]%nat ∧
    shape ∘ data <$> parameters (net model) !! "classifier.fc2.bias" = Some [102]%nat ∧
    (out_features (classifier (net model)) = dict_len M ↔ dict_len M = 102%nat).
Proof.
  destruct (create_model_returns arch M w) as (w1 & b1 & w2 & b2 & r & o & ->).
  eexists _, _, _, _. split; [done|]. cbn [net].
  destruct (attached_head_lookup 102 w1 b1 w2 b2 (freeze models_densenet121))
    as (_ & _ & -> & ->).
  repeat split; try done; unfold out_features; simpl; congruence.
Qed.

(** C4 (as the code has it): the architecture identifier is never
    inspected; for every identifier [create_model] returns what it returns
    for ["densenet121"], and that is a model, not an error. *)
Theorem create_model_ignores_arch arch (M : pydict string Z) w :
  create_model arch M w = create_model "densenet121" M w ∧
  ∃ w' built, create_model arch M w = (w', Ok built).
Proof.
  split; [done|].
  destruct (create_model_returns arch M w) as (w1 & b1 & w2 & b2 & r & o & ->).
  by eexists _, _.
Qed.

(** C3: for a label mapping [M] with distinct values (and, as every
    dictionary, distinct keys), the [class_to_idx] stored on the model
    returned by [create_model] is the inverse of [M]: index [i] is mapped
    to label [k] exactly when [M[k] = i]. *)
Theorem create_model_class_to_idx_inverse arch (M : pydict string Z) w
    (Hkeys : NoDup (dict_keys M)) (Hvalues : NoDup (dict_values M)) :
  ∃ w' model optimizer criterion,
    create_model arch M w = (w', Ok (model, optimizer, criterion)) ∧
    ∀ i k, dict_get (class_to_idx model) i = Some k ↔ dict_get M k = Some i.
Proof.
  destruct (create_model_returns arch M w) as (w1 & b1 & w2 & b2 & r & o & ->).
  eexists _, _, _, _. split; [done|]. simpl. intros i k.
  unfold swap_keys_and_items, dict_keys.
  rewrite (swap_by_keys M M []) by (intros; by apply dict_get_elem).
  rewrite swap_entries_get by done. simpl. split.
  - intros [Hin|[_ ?]]; [|done]. by apply dict_get_elem.
  - intros Hg. left. by apply dict_get_Some_elem.
Qed.

(** ** Frame properties of validate and train *)

Lemma foldM_invariant {S A X} (P : S → Prop) (body : A → X → Py S A) :
  (∀ a x s, P s → P (body a x s).1) →
  ∀ xs a s, P s → P (foldM body a xs s).1.
Proof.
  intros Hbody xs. induction xs as [|x xs IH]; intros a s Hs; simpl; [done|].
  unfold bind. specialize (Hbody a x s Hs).
  destruct (body a x s) as [s' [a'|e]]; simpl in *; [by apply IH|done].
Qed.

Lemma set_net_net (m : model) : set_net (net m) m = m.
Proof. by destruct m. Qed.

Lemma set_training_id (n : module) b : training n = b → set_training b n = n.
Proof. intros <-. by destruct n. Qed.

(** In inference mode a forward pass changes nothing. *)
Lemma forward_eval inputs (m : model) :
  training (net m) = false →
  ∃ h, forward inputs m
       = (m, Ok (mkVariable (network_output false (net m) (var_data inputs))
                            (volatile inputs) h)).
Proof.
  intros Hmode. unfold forward, on_net, zoom, Module_forward.
  rewrite Hmode, set_net_net. by eexists.
Qed.

Lemma validate_batch_frame criterion use_gpu acc batch (m : model) :
  training (net m) = false →
  (validate_batch criterion use_gpu acc batch m).1 = m.
Proof.
  intros Hmode. destruct acc as [accuracy test_loss], batch as [inputs labels].
  unfold validate_batch, bind.
  destruct (forward_eval (if use_gpu then Variable_ (cuda (float inputs)) true
                          else Variable_ inputs true) m Hmode) as [h ->].
  unfold lift. destruct (tensor_max1 _); [|done].
  by destruct (tensor_eq _ _).
Qed.

Lemma validate_frame criterion data_loader use_gpu (m : model) :
  (validate criterion data_loader use_gpu m).1
  = set_net (set_training false (net m)) m.
Proof.
  unfold validate, bind. simpl.
  set (m0 := set_net (set_training false (net m)) m).
  pose proof (foldM_invariant (λ s, s = m0) (validate_batch criterion use_gpu)) as Hinv.
  simpl in Hinv.
  specialize (Hinv (λ a x s Hs, eq_trans (validate_batch_frame _ _ a x s
                      (eq_trans (f_equal (training ∘ net) Hs) eq_refl)) Hs)).
  specialize (Hinv data_loader (0%Q, 0%Q) m0 eq_refl).
  unfold model_eval, on_net, zoom, modify. simpl. fold m0.
  destruct (foldM _ _ _ m0) as [s' [[accuracy test_loss]|e]]; simpl in *; [|done].
  unfold lift. destruct (py_div test_loss _); [|done].
  by destruct (py_div accuracy _).
Qed.

(** C6: whatever the model, criterion, validation data loader and device
    flag, and whether or not the call raises, [validate] leaves every
    parameter of the model as it was (value, gradient and trainability);
    the running statistics and the label table are untouched as well. *)
Theorem validate_preserves_parameters criterion data_loader use_gpu (m : model) :
  let m' := (validate criterion data_loader use_gpu m).1 in
  parameters (net m') = parameters (net m) ∧
  buffers (net m') = buffers (net m) ∧
  class_to_idx m' = class_to_idx m.
Proof. simpl. by rewrite validate_frame. Qed.

(** C10: on a data loader that yields no batch, [validate] returns no
    (loss, accuracy) pair: the division by the number of batches raises
    [ZeroDivisionError]. *)
Theorem validate_empty_loader_raises criterion use_gpu (m : model) :
  (validate criterion [] use_gpu m).2 = Raise ZeroDivisionError.
Proof. reflexivity. Qed.

Lemma foldM_skip {S A X} (body : A → X → Py S A) (xs : list X) a s :
  (∀ x, body a x s = (s, Ok a)) → foldM body a xs s = (s, Ok a).
Proof.
  intros Hbody. induction xs as [|x xs IH]; simpl; [done|].
  unfold bind. by rewrite Hbody.
Qed.

(** C9: with a training data loader that yields no batch, [train]
    returns normally for every model, optimizer and epoch count; the
    optimizer is untouched (no step was taken), nothing is printed, and the
    model differs from the one passed in only by being in training mode, so
    all its parameters are unchanged. *)
Theorem train_no_batches criterion epochs validation_data_loader use_gpu (s : TrainState) :
  train criterion epochs [] validation_data_loader use_gpu s
  = (mkTrainState (ts_world s)
                  (set_net (set_training true (net (ts_model s))) (ts_model s))
                  (ts_optimizer s),
     Ok tt) ∧
  parameters (net (ts_model (train criterion epochs [] validation_data_loader use_gpu s).1))
  = parameters (net (ts_model s)).
Proof.
  assert (train criterion epochs [] validation_data_loader use_gpu s
          = (mkTrainState (ts_world s)
               (set_net (set_training true (net (ts_model s))) (ts_model s))
               (ts_optimizer s), Ok tt)) as Heq.
  { unfold train, bind at 1. simpl. unfold bind at 1.
    by rewrite foldM_skip. }
  by rewrite Heq.
Qed.

(** ** Checkpoints *)

Lemma copy_entry_ok name t (m : module) :
  layout m !! name = Some (shape t) →
  ∃ m', copy_entry name t m = (m', Ok tt) ∧
        state_dict m' = <[name := t]> (state_dict m) ∧
        classifier m' = classifier m ∧ training m' = training m.
Proof.
  unfold layout, state_dict, copy_entry. rewrite lookup_fmap, lookup_union, lookup_fmap.
  destruct (parameters m !! name) as [p|] eqn:Hp; simpl.
  - rewrite union_Some_l. simpl. intros [= Hs]. rewrite decide_True by done.
    eexists. split; [done|]. simpl. split; [|done].
    by rewrite fmap_insert, insert_union_l.
  - rewrite (left_id_L None _). destruct (buffers m !! name) as [b|] eqn:Hb; simpl; [|done].
    intros [= Hs]. rewrite decide_True by done.
    eexists. split; [done|]. simpl. split; [|done].
    rewrite insert_union_r; [done|]. by rewrite lookup_fmap, Hp.
Qed.

Lemma copy_entries_ok (l : list (string * tensor)) (m : module) :
  NoDup (l.*1) →
  (∀ name t, (name, t) ∈ l → layout m !! name = Some (shape t)) →
  ∃ m', foldM (λ _ kv, copy_entry kv.1 kv.2) tt l m = (m', Ok tt) ∧
        state_dict m' = list_to_map l ∪ state_dict m ∧
        classifier m' = classifier m ∧ training m' = training m.
Proof.
  revert m. induction l as [|[name t] l IH]; intros m Hnd Hl.
  - exists m. simpl. by rewrite (left_id_L ∅ _).
  - rewrite fmap_cons in Hnd. apply NoDup_cons in Hnd as [Hnotin Hnd]. simpl.
    destruct (copy_entry_ok name t m) as (m1 & Hc & Hsd & Hcl & Htr); [apply Hl; left|].
    unfold bind. rewrite Hc.
    destruct (IH m1 Hnd) as (m' & Hf & Hsd' & Hcl' & Htr').
    { intros name' t' Hin. unfold layout. rewrite Hsd, fmap_insert, lookup_insert_ne.
      - apply Hl. by right.
      - intros ->. apply Hnotin. by apply (list_elem_of_fmap_2 fst) in Hin. }
    exists m'. split; [done|]. split; [|by rewrite Hcl', Htr'].
    rewrite Hsd', Hsd. cbn [list_to_map foldr uncurry].
    rewrite <-insert_union_l. symmetry. apply insert_union_r.
    by apply not_elem_of_list_to_map_1.
Qed.

(** Loading a state dictionary with the module's own layout succeeds and
    leaves the module with exactly the loaded state. *)
Lemma load_state_dict_ok (sd : gmap string tensor) (m : module) :
  layout m = shape <$> sd →
  ∃ m', load_state_dict sd m = (m', Ok tt) ∧
        state_dict m' = sd ∧
        classifier m' = classifier m ∧ training m' = training m.
Proof.
  intros Hlay. unfold load_state_dict, bind.
  destruct (copy_entries_ok (map_to_list sd) m) as (m' & -> & Hsd & Hcl & Htr).
  { apply NoDup_fst_map_to_list. }
  { intros name t Hin%elem_of_map_to_list. by rewrite Hlay, lookup_fmap, Hin. }
  rewrite list_to_map_to_list in Hsd.
  assert (state_dict m' = sd) as Hsd'.
  { rewrite Hsd. apply map_eq. intros k. rewrite lookup_union.
    destruct (sd !! k) as [t|] eqn:Hk; simpl.
    - by rewrite union_Some_l.
    - rewrite (left_id_L None _).
      assert (layout m !! k = None) as Hn by (by rewrite Hlay, lookup_fmap, Hk).
      unfold layout in Hn. rewrite lookup_fmap in Hn.
      by destruct (state_dict m !! k). }
  exists m'. simpl. unfold get. rewrite Hsd'.
  destruct (filter _ _) as [|name rest] eqn:Hf; [done|].
  exfalso. assert (name ∈ filter (λ name, sd !! name = None) (map_to_list sd).*1) as Hin
    by (rewrite Hf; left).
  apply list_elem_of_filter in Hin as [Hnone Hin].
  apply list_elem_of_fmap in Hin as ([k t] & -> & Hin%elem_of_map_to_list).
  simpl in Hnone. congruence.
Qed.

Lemma head_layout o w1 b1 w2 b2 w1' b1' w2' b2' (m : module) :
  layout (set_classifier (head o w1 b1 w2 b2) m)
  = layout (set_classifier (head o w1' b1' w2' b2') m).
Proof.
  unfold layout, state_dict, set_classifier, head. simpl.
  by rewrite !map_fmap_union, !fmap_insert, !fmap_empty.
Qed.

Lemma copy_entry_classifier name t (m : module) :
  classifier (copy_entry name t m).1 = classifier m.
Proof.
  unfold copy_entry. destruct (parameters m !! name) as [p|].
  - by destruct (decide _).
  - destruct (buffers m !! name) as [b|]; [by destruct (decide _)|done].
Qed.

Lemma load_state_dict_classifier sd (m : module) :
  classifier (load_state_dict sd m).1 = classifier m.
Proof.
  unfold load_state_dict, bind.
  pose proof (foldM_invariant (λ s, classifier s = classifier m)
                (λ _ kv, copy_entry kv.1 kv.2)) as Hinv. simpl in Hinv.
  specialize (Hinv (λ a x s Hs, eq_trans (copy_entry_classifier x.1 x.2 s) Hs)
                   (map_to_list sd) tt m eq_refl).
  destruct (foldM _ _ _ m) as [m' [[]|e]]; simpl in *; [|done].
  by destruct (filter _ _).
Qed.

(** What [load_checkpoint] does on a checkpoint file whose state
    dictionary has the layout of the network. *)
Lemma load_checkpoint_ok file_path w state w1 b1 w2 b2 :
  fs w !! file_path = Some (Pickled state) →
  shape <$> ck_state_dict state
  = layout (set_classifier (head 102 w1 b1 w2 b2) models_densenet121) →
  ∃ r n,
    load_checkpoint file_path w
    = (mkWorld (fs w)
               (stdout w ++ [CheckpointLoaded file_path (ck_arch state) (ck_epoch state)])
               r,
       Ok (mkModel n (ck_class_to_idx state))) ∧
    state_dict n = ck_state_dict state ∧
    classifier n = classifier (set_classifier (head 102 w1 b1 w2 b2) models_densenet121).
Proof.
  intros Hfile Hlay. unfold load_checkpoint, bind.
  destruct (nn_Sequential_head 102 w) as (w1' & b1' & w2' & b2' & r & ->).
  unfold torch_load. simpl. rewrite Hfile.
  destruct (load_state_dict_ok (ck_state_dict state)
              (set_classifier (head 102 w1' b1' w2' b2') models_densenet121))
    as (n & -> & Hsd & Hcl & _).
  { rewrite Hlay. apply head_layout. }
  by exists r, n.
Qed.

(** Every model that [load_checkpoint] returns has the 102-wide head and
    the label table recorded in the file. *)
Lemma load_checkpoint_inv file_path w w' (m : model) :
  load_checkpoint file_path w = (w', Ok m) →
  ∃ state, fs w !! file_path = Some (Pickled state) ∧
           class_to_idx m = ck_class_to_idx state ∧
           out_features (classifier (net m)) = 102%nat.
Proof.
  unfold load_checkpoint, bind.
  destruct (nn_Sequential_head 102 w) as (w1 & b1 & w2 & b2 & r & ->).
  unfold torch_load. simpl.
  destruct (fs w !! file_path) as [[state| |]|]; try done.
  pose proof (load_state_dict_classifier (ck_state_dict state)
                (set_classifier (head 102 w1 b1 w2 b2) models_densenet121)) as Hcl.
  destruct (load_state_dict _ _) as [n [[]|e]]; simpl in *; [|done].
  intros [= <- <-]. exists state. simpl. by rewrite Hcl.
Qed.

(** ** Predictions depend on the state dictionary only *)

Lemma network_output_congr mode (n1 n2 : module) xs :
  classifier n1 = classifier n2 → state_dict n1 = state_dict n2 →
  network_output mode n1 xs = network_output mode n2 xs.
Proof. unfold network_output. by intros -> ->. Qed.

Lemma predict_congr w image_path use_gpu topk (m1 m2 : model) :
  classifier (net m1) = classifier (net m2) →
  state_dict (net m1) = state_dict (net m2) →
  class_to_idx m1 = class_to_idx m2 →
  (predict w image_path use_gpu topk m1).2 = (predict w image_path use_gpu topk m2).2.
Proof.
  intros Hcl Hsd Hidx. unfold predict, bind.
  unfold model_eval, on_net, zoom, modify, lift. simpl.
  destruct (Image_open image_path w) as [image|e]; [|done].
  change (state_dict (set_training false (net m1))) with (state_dict (net m1)).
  change (state_dict (set_training false (net m2))) with (state_dict (net m2)).
  rewrite Hcl, Hsd, Hidx.
  destruct (tensor_topk _ _) as [ps|e]; [|done].
  destruct (row0 (numpy (if use_gpu then cpu ps.2 else ps.2))) as [labels|e]; [|done].
  destruct (fold_result _ _ _) as [mapped|e]; [|done].
  by destruct (row0 _).
Qed.

(** ** Round trip *)

(** C1: for every model of the program's architecture, every optimizer,
    epoch count [E] and path, saving a checkpoint and loading it back
    succeeds; the loaded model has the saved state dictionary and label
    table, its network output equals the saved model's on every batch (in
    either mode), [predict] returns the same result on every image, and the
    line printed on loading reports the epoch count [E]. *)
Theorem checkpoint_round_trip file_path (m : model) optimizer total_epochs w
    (Harch : has_architecture (net m)) :
  ∃ w1 w2 loaded,
    save_checkpoint file_path m optimizer total_epochs w = (w1, Ok tt) ∧
    load_checkpoint file_path w1 = (w2, Ok loaded) ∧
    state_dict (net loaded) = state_dict (net m) ∧
    class_to_idx loaded = class_to_idx m ∧
    (∀ mode xs, network_output mode (net loaded) xs = network_output mode (net m) xs) ∧
    (∀ world image_path use_gpu topk,
       (predict world image_path use_gpu topk loaded).2
       = (predict world image_path use_gpu topk m).2) ∧
    last (stdout w2) = Some (CheckpointLoaded file_path "densenet121" total_epochs).
Proof.
  destruct Harch as (w1 & b1 & w2 & b2 & Hcl & Hlay).
  set (state := mkCheckpoint total_epochs "densenet121" (state_dict (net m))
                             (optimizer_state_dict optimizer) (class_to_idx m)).
  destruct (load_checkpoint_ok file_path
              (mkWorld (<[file_path := Pickled state]> (fs w))
                       (stdout w ++ [CheckpointSaved file_path "densenet121" total_epochs])
                       (rng w))
              state w1 b1 w2 b2) as (r & n & Hload & Hsd & Hcl').
  { simpl. apply lookup_insert_eq. }
  { exact Hlay. }
  eexists _, _, _. split; [reflexivity|].
  split; [exact Hload|]. simpl in *.
  assert (classifier n = classifier (net m)) as Hc by congruence.
  repeat split; try done.
  - intros mode xs. by apply network_output_congr.
  - intros. by apply predict_congr.
  - by rewrite last_snoc.
Qed.

Lemma copy_entry_inv name t (m m' : module) u :
  copy_entry name t m = (m', Ok u) → layout m !! name = Some (shape t).
Proof.
  unfold layout, state_dict, copy_entry. rewrite lookup_fmap, lookup_union, lookup_fmap.
  destruct (parameters m !! name) as [p|]; simpl.
  - rewrite union_Some_l. destruct (decide _) as [Heq|]; [|by intros [=]].
    intros _. simpl. by rewrite Heq.
  - rewrite (left_id_L None _). destruct (buffers m !! name) as [b|]; simpl; [|by intros [=]].
    destruct (decide _) as [Heq|]; [|by intros [=]].
    intros _. by rewrite Heq.
Qed.

Lemma copy_entries_inv (l : list (string * tensor)) (m m' : module) u :
  foldM (λ _ kv, copy_entry kv.1 kv.2) tt l m = (m', Ok u) →
  layout m' = layout m ∧
  ∀ name t, (name, t) ∈ l → layout m !! name = Some (shape t).
Proof.
  revert m. induction l as [|[name t] l IH]; intros m; simpl.
  - intros [= <- _]. split; [done|]. by intros ?? ?%elem_of_nil.
  - unfold bind. destruct (copy_entry name t m) as [m1 [[]|e]] eqn:Hc; [|by intros [=]].
    intros Hf. apply IH in Hf as [Hlay Hl].
    pose proof (copy_entry_inv _ _ _ _ _ Hc) as Hname.
    destruct (copy_entry_ok name t m Hname) as (m1' & Hc' & Hsd & _).
    rewrite Hc in Hc'. injection Hc' as <-.
    assert (layout m1 = layout m) as Hlay1.
    { unfold layout. rewrite Hsd, fmap_insert. by apply insert_id. }
    split; [congruence|].
    intros name' t' [[= -> ->]|Hin]%elem_of_cons; [done|].
    rewrite <-Hlay1. by apply Hl.
Qed.

(** A state dictionary loads only into a module with the same layout. *)
Lemma load_state_dict_inv (sd : gmap string tensor) (m m' : module) u :
  load_state_dict sd m = (m', Ok u) → layout m = shape <$> sd.
Proof.
  unfold load_state_dict, bind.
  destruct (foldM _ _ _ m) as [m1 [[]|e]] eqn:Hf; [|by intros [=]].
  apply copy_entries_inv in Hf as [Hlay Hl]. unfold get.
  destruct (filter _ _) as [|name rest] eqn:Hmiss; [|by intros [=]].
  intros _. apply map_eq. intros k. rewrite lookup_fmap.
  destruct (sd !! k) as [t|] eqn:Hk; simpl.
  - apply Hl. by apply elem_of_map_to_list.
  - destruct (layout m !! k) as [sh|] eqn:Hlk; [|done]. exfalso.
    rewrite <-Hlay in Hlk. unfold layout in Hlk. rewrite lookup_fmap in Hlk.
    destruct (state_dict m1 !! k) as [t|] eqn:Hs; [|done].
    assert (k ∈ filter (λ name, sd !! name = None) (map_to_list (state_dict m1)).*1) as Hin.
    { apply list_elem_of_filter. split; [done|].
      apply list_elem_of_fmap. exists (k, t). split; [done|]. by apply elem_of_map_to_list. }
    rewrite Hmiss in Hin. by apply elem_of_nil in Hin.
Qed.

(** C5 (as the code has it): the model that [load_checkpoint] returns
    carries the state dictionary and the label table recorded in the file;
    the optimizer state recorded in the file is not read: with any other
    optimizer state in the file, the same model is returned and the same
    line is printed. *)
Theorem load_checkpoint_restores_model_only file_path w state w' (m : model)
    (Hfile : fs w !! file_path = Some (Pickled state))
    (Hload : load_checkpoint file_path w = (w', Ok m)) :
  state_dict (net m) = ck_state_dict state ∧
  class_to_idx m = ck_class_to_idx state ∧
  ∀ o, load_checkpoint file_path
         (mkWorld (<[file_path := Pickled (set_ck_optimizer o state)]> (fs w))
                  (stdout w) (rng w))
       = (mkWorld (<[file_path := Pickled (set_ck_optimizer o state)]> (fs w))
                  (stdout w') (rng w'),
          Ok m).
Proof.
  destruct w as [f s r0]. simpl in Hfile.
  destruct (nn_Sequential_head_rng 102 r0) as (w1 & b1 & w2 & b2 & r & Hhead).
  unfold load_checkpoint, bind, torch_load in Hload.
  rewrite Hhead in Hload. simpl in Hload. rewrite Hfile in Hload. simpl in Hload.
  destruct (load_state_dict _ _) as [n [[]|e]] eqn:Hl; simpl in Hload; [|done].
  injection Hload as <- <-. simpl.
  pose proof (load_state_dict_inv _ _ _ _ Hl) as Hlay.
  destruct (load_state_dict_ok _ _ Hlay) as (n' & Hl' & Hsd & _).
  rewrite Hl in Hl'. injection Hl' as <-.
  split; [done|]. split; [done|]. intros o.
  unfold load_checkpoint, bind, torch_load.
  rewrite Hhead. simpl. rewrite lookup_insert_eq. simpl. by rewrite Hl.
Qed.

(** ** Accuracy computed by validate *)

Lemma row_max_arg_max (row : list Q) :
  row ≠ [] → ∃ v, row_max row = Ok (v, arg_max row).
Proof.
  destruct row as [|x row]; [done|]. intros _. simpl.
  destruct (max_from 1 (x, 0%nat) row) as [v i]. by exists v.
Qed.

Lemma tensor_max1_arg_max (t : list (list Q)) :
  Forall (λ row, row ≠ []) t → ∃ vs, tensor_max1 t = Ok (vs, arg_max <$> t).
Proof.
  intros Ht.
  assert (∃ rows, mapM_result row_max t = Ok rows ∧ rows.*2 = arg_max <$> t)
    as (rows & Hrows & Harg).
  { induction Ht as [|row t Hrow Ht IH]; [by exists []|].
    destruct (row_max_arg_max row Hrow) as [v Hv].
    destruct IH as (rows & Hrows & Harg).
    exists ((v, arg_max row) :: rows). cbn [mapM_result]. rewrite Hv. cbn [result_bind].
    rewrite Hrows. cbn [result_bind]. split; [done|].
    rewrite !fmap_cons. cbn [snd]. by rewrite Harg. }
  unfold tensor_max1. rewrite Hrows. cbn [result_bind]. rewrite Harg. by eexists.
Qed.

Lemma network_output_length mode (n : module) xs :
  length (network_output mode n xs) = length xs.
Proof. unfold network_output. by rewrite length_fmap, length_seq. Qed.

Lemma network_output_width mode (n : module) xs :
  Forall (λ row, length row = out_features (classifier n)) (network_output mode n xs).
Proof.
  unfold network_output. apply Forall_fmap, Forall_forall. intros i _. simpl.
  by rewrite length_fmap, length_seq.
Qed.

Lemma torch_exp_nonempty mode (n : module) xs :
  out_features (classifier n) ≠ 0%nat →
  Forall (λ row, row ≠ []) (torch_exp (network_output mode n xs)).
Proof.
  intros Hw. unfold torch_exp. apply Forall_fmap.
  eapply Forall_impl; [apply network_output_width|].
  intros row Hlen. simpl. destruct row; [done|done].
Qed.

Lemma validate_batch_eval criterion use_gpu accuracy test_loss inputs labels (m : model) :
  training (net m) = false →
  out_features (classifier (net m)) ≠ 0%nat →
  length labels = length inputs →
  validate_batch criterion use_gpu (accuracy, test_loss) (inputs, labels) m
  = (m, Ok ((accuracy + batch_accuracy m (inputs, labels))%Q,
            (test_loss + batch_loss criterion m (inputs, labels))%Q)).
Proof.
  intros Hmode Hw Hlen. unfold validate_batch, bind.
  destruct (forward_eval (if use_gpu then Variable_ (cuda (float inputs)) true
                          else Variable_ inputs true) m Hmode) as [h ->].
  assert (var_data (if use_gpu then Variable_ (cuda (float inputs)) true
                    else Variable_ inputs true) = inputs) as -> by (by destruct use_gpu).
  assert (var_data (if use_gpu then Variable_ (cuda (long labels)) true
                    else Variable_ labels true) = labels) as Hlabels by (by destruct use_gpu).
  unfold lift. cbn [var_data].
  destruct (tensor_max1_arg_max _ (torch_exp_nonempty false (net m) inputs Hw)) as [vs ->].
  cbn [snd]. rewrite Hlabels. unfold tensor_eq.
  rewrite decide_True.
  2:{ unfold torch_exp. by rewrite !length_fmap, network_output_length. }
  unfold ret, batch_accuracy, batch_loss, tensor_mean, correct_predictions, predicted_classes.
  cbn [fst snd]. rewrite length_zip_with.
  unfold torch_exp at 2. rewrite !length_fmap, network_output_length, Hlen, Nat.min_id.
  unfold criterion_apply. cbn [var_data]. by rewrite Hlabels.
Qed.

Lemma validate_batches criterion use_gpu (m : model) data_loader accuracy test_loss :
  training (net m) = false →
  out_features (classifier (net m)) ≠ 0%nat →
  Forall (λ b, length b.2 = length b.1) data_loader →
  foldM (validate_batch criterion use_gpu) (accuracy, test_loss) data_loader m
  = (m, Ok (fold_left Qplus (batch_accuracy m <$> data_loader) accuracy,
            fold_left Qplus (batch_loss criterion m <$> data_loader) test_loss)).
Proof.
  intros Hmode Hw Hall. revert accuracy test_loss.
  induction Hall as [|[inputs labels] l Hb Hl IH]; intros accuracy test_loss; [done|].
  rewrite !fmap_cons. cbn [foldM fold_left]. unfold bind.
  rewrite validate_batch_eval by done. apply IH.
Qed.
End Properties.

(** ** Sums of fractions *)

Section Rationals.
Local Open Scope Q_scope.

Lemma Qnat_nonneg n : 0 <= Qnat n.
Proof. unfold Qnat. change 0 with (inject_Z 0). rewrite <-Zle_Qle. lia. Qed.

Lemma Qnat_le a b : (a ≤ b)%nat → Qnat a <= Qnat b.
Proof. intros. unfold Qnat. rewrite <-Zle_Qle. lia. Qed.

Lemma Qnat_pos n : (0 < n)%nat → 0 < Qnat n.
Proof. intros. unfold Qnat. change 0 with (inject_Z 0). rewrite <-Zlt_Qlt. lia. Qed.

Lemma Qnat_S n : Qnat (S n) == Qnat n + 1.
Proof. unfold Qnat. rewrite Nat2Z.inj_succ, <-Z.add_1_r, inject_Z_plus. reflexivity. Qed.

Lemma Qnat_add a b : Qnat (a + b) == Qnat a + Qnat b.
Proof. unfold Qnat. rewrite Nat2Z.inj_add, inject_Z_plus. reflexivity. Qed.

Lemma Qnat_mul a b : Qnat (a * b) == Qnat a * Qnat b.
Proof. unfold Qnat. rewrite Nat2Z.inj_mul, inject_Z_mult. reflexivity. Qed.

Lemma Qnat_fraction c n : (c ≤ n)%nat → 0 <= Qnat c / Qnat n ∧ Qnat c / Qnat n <= 1.
Proof.
  intros Hle. destruct n as [|n].
  - assert (c = 0)%nat as -> by lia. by compute.
  - pose proof (Qnat_pos (S n) ltac:(lia)) as Hpos. split.
    + apply Qle_shift_div_l; [done|]. rewrite Qmult_0_l. apply Qnat_nonneg.
    + apply Qle_shift_div_r; [done|]. rewrite Qmult_1_l. by apply Qnat_le.
Qed.

Lemma fold_left_Qplus (l : list Q) a : fold_left Qplus l a == a + sumQ l.
Proof.
  revert a. induction l as [|x l IH]; intros a; simpl.
  - unfold sumQ. simpl. ring.
  - rewrite IH. unfold sumQ. simpl. ring.
Qed.

Lemma sumQ_bounds (l : list Q) :
  Forall (λ x, 0 <= x ∧ x <= 1) l → 0 <= sumQ l ∧ sumQ l <= Qnat (length l).
Proof.
  induction 1 as [|x l [Hx0 Hx1] Hl [IH0 IH1]]; unfold sumQ in *; simpl.
  - by compute.
  - rewrite Qnat_S. split; lra.
Qed.

Lemma sumQ_div (l : list nat) n :
  sumQ ((λ c, Qnat c / Qnat n) <$> l) == Qnat (sum_list l) / Qnat n.
Proof.
  induction l as [|c l IH]; unfold sumQ in *; simpl.
  - unfold Qdiv. by rewrite Qmult_0_l.
  - rewrite IH, Qnat_add. unfold Qdiv. ring.
Qed.
End Rationals.

Section Accuracy.
Context `{E : Engine}.

Local Abbreviation model := (Model Storage).

Lemma batch_accuracy_bounds (m : model) (b : list Image * list Z) :
  length b.2 = length b.1 →
  (0 <= batch_accuracy m b)%Q ∧ (batch_accuracy m b <= 1)%Q.
Proof.
  intros Hlen. unfold batch_accuracy. apply Qnat_fraction.
  unfold correct_predictions, count_true.
  etrans; [apply length_filter|]. rewrite length_zip_with. lia.
Qed.

Lemma sum_list_sizes (l : list (list Image * list Z)) n :
  Forall (λ b, length b.1 = n) l →
  sum_list ((λ b, length b.1) <$> l) = (length l * n)%nat.
Proof.
  induction 1 as [|b l Hb Hl IH]; [done|].
  rewrite fmap_cons. cbn [sum_list sum_list_with length]. rewrite IH. unfold id. lia.
Qed.

Lemma validate_returns criterion data_loader use_gpu (m : model) :
  data_loader ≠ [] →
  out_features (classifier (net m)) ≠ 0%nat →
  Forall (λ b, length b.2 = length b.1) data_loader →
  (validate criterion data_loader use_gpu m).2
  = Ok ((fold_left Qplus (batch_loss criterion m <$> data_loader) 0
         / Qnat (length data_loader))%Q,
        (fold_left Qplus (batch_accuracy m <$> data_loader) 0
         / Qnat (length data_loader))%Q).
Proof.
  intros Hne Hw Hall. unfold validate, bind.
  set (m0 := set_net (set_training false (net m)) m).
  change (model_eval m) with (m0, Ok tt). lazy beta iota.
  rewrite (validate_batches criterion use_gpu m0) by done.
  unfold lift, py_div. rewrite decide_False by (by destruct data_loader).
  lazy beta iota. rewrite decide_False by (by destruct data_loader).
  reflexivity.
Qed.

(** C7 (as the code has it): on a non-empty validation set of non-empty
    batches, the accuracy [validate] returns is the mean over the batches
    of the fraction of examples of the batch whose arg-max class is the
    true label; it lies in [0,1]; and when all batches have the same size
    it equals the number of correctly classified examples divided by the
    number of examples. *)
Theorem validate_accuracy criterion data_loader use_gpu (m : model)
    (Hne : data_loader ≠ [])
    (Hbatches : Forall (λ b, b.1 ≠ [] ∧ length b.2 = length b.1) data_loader)
    (Hwidth : out_features (classifier (net m)) ≠ 0%nat) :
  ∃ loss accuracy,
    (validate criterion data_loader use_gpu m).2 = Ok (loss, accuracy) ∧
    (accuracy == mean_batch_accuracy m data_loader)%Q ∧
    (0 <= accuracy)%Q ∧ (accuracy <= 1)%Q ∧
    (∀ n, Forall (λ b, length b.1 = n) data_loader →
          (accuracy == example_accuracy m data_loader)%Q).
Proof.
  assert (Forall (λ b : list Image * list Z, length b.2 = length b.1) data_loader) as Hlen.
  { eapply Forall_impl; [exact Hbatches|]. by intros b [_ ?]. }
  eexists _, _. split; [by apply validate_returns|].
  assert (0 < Qnat (length data_loader))%Q as Hpos.
  { apply Qnat_pos. destruct data_loader; [done|simpl; lia]. }
  assert (fold_left Qplus (batch_accuracy m <$> data_loader) 0
          / Qnat (length data_loader) == mean_batch_accuracy m data_loader)%Q as Hmean.
  { unfold mean_batch_accuracy. rewrite fold_left_Qplus. by rewrite Qplus_0_l. }
  split; [exact Hmean|]. rewrite Hmean. unfold mean_batch_accuracy.
  destruct (sumQ_bounds (batch_accuracy m <$> data_loader)) as [Hs0 Hs1].
  { apply Forall_fmap. eapply Forall_impl; [exact Hlen|]. apply batch_accuracy_bounds. }
  rewrite length_fmap in Hs1.
  split; [|split].
  - apply Qle_shift_div_l; [done|]. by rewrite Qmult_0_l.
  - apply Qle_shift_div_r; [done|]. by rewrite Qmult_1_l.
  - intros n Hn. rewrite Hmean. unfold mean_batch_accuracy, example_accuracy.
    assert (batch_accuracy m <$> data_loader
            = (λ c, Qnat c / Qnat n)%Q <$> (correct_predictions m <$> data_loader)) as ->.
    { rewrite <-list_fmap_compose. apply Forall_fmap_ext_1.
      eapply Forall_impl; [exact Hn|]. intros b Hb. simpl.
      unfold batch_accuracy. by rewrite Hb. }
    rewrite sumQ_div.
    rewrite (sum_list_sizes data_loader n Hn), Qnat_mul.
    assert (0 < n)%nat as Hn0.
    { destruct data_loader as [|b l]; [done|].
      apply Forall_cons in Hn as [<- _]. apply Forall_cons in Hbatches as [[Hb _] _].
      destruct b.1; [done|simpl; lia]. }
    apply Qnat_pos in Hn0. field. split; lra.
Qed.
End Accuracy.

(** ** Top-k selection *)

Section TopK.

Lemma insert_desc_perm x l : insert_desc x l ≡ₚ x :: l.
Proof.
  induction l as [|y l IH]; simpl; [done|].
  destruct (Qle_bool y.1 x.1); [done|]. rewrite IH. apply Permutation_swap.
Qed.

Lemma sort_desc_perm l : sort_desc l ≡ₚ l.
Proof.
  unfold sort_desc. induction l as [|x l IH]; simpl; [done|].
  by rewrite insert_desc_perm, IH.
Qed.

Lemma insert_desc_sorted x l :
  StronglySorted desc l → StronglySorted desc (insert_desc x l).
Proof.
  induction l as [|y l IH]; simpl; intros Hs.
  - repeat constructor.
  - apply StronglySorted_cons in Hs as [Hy Hs].
    destruct (Qle_bool y.1 x.1) eqn:Hle.
    + apply Qle_bool_iff in Hle. apply StronglySorted_cons. split.
      * constructor; [done|]. eapply Forall_impl; [exact Hy|].
        intros z Hz. unfold desc in *. by apply (Qle_trans _ y.1).
      * by apply StronglySorted_cons.
    + assert (desc y x) as Hyx.
      { unfold desc. apply Qnot_lt_le. intros Hlt%Qlt_le_weak.
        apply Qle_bool_iff in Hlt. congruence. }
      apply StronglySorted_cons. split; [|by apply IH].
      rewrite insert_desc_perm. by constructor.
Qed.

Lemma sort_desc_sorted l : StronglySorted desc (sort_desc l).
Proof.
  unfold sort_desc. induction l as [|x l IH]; simpl; [constructor|].
  by apply insert_desc_sorted.
Qed.

Lemma elem_of_zip_seq (row : list Q) s v i :
  (v, i) ∈ zip row (seq s (length row)) ↔ ∃ j, i = (s + j)%nat ∧ row !! j = Some v.
Proof.
  revert s. induction row as [|x row IH]; intros s; simpl.
  - split; [by intros ?%elem_of_nil|]. by intros (j & _ & ?).
  - rewrite elem_of_cons, IH. split.
    + intros [[= -> ->]|(j & -> & Hj)].
      * exists 0%nat. split; [lia|done].
      * exists (S j). split; [lia|done].
    + intros ([|j] & -> & Hj); simpl in Hj.
      * left. injection Hj as ->. f_equal. lia.
      * right. exists j. split; [lia|done].
Qed.

(** The selection made by [row_topk]: [k] entries of the row, in decreasing
    order, at distinct positions, and no entry left out is larger. *)
Lemma row_topk_spec k (row : list Q) :
  (k ≤ length row)%nat →
  ∃ top : list (Q * nat),
    row_topk k row = Ok (top.*1, Z.of_nat <$> top.*2) ∧
    length top = k ∧
    StronglySorted desc top ∧
    NoDup (top.*2) ∧
    Forall (λ pi, row !! pi.2 = Some pi.1) top ∧
    ∀ j p, row !! j = Some p → j ∉ top.*2 → Forall (λ pi, (p <= pi.1)%Q) top.
Proof.
  intros Hk. unfold row_topk. rewrite decide_True by done.
  set (pairs := zip row (seq 0 (length row))).
  set (sorted := sort_desc pairs).
  assert (length sorted = length row) as Hlen.
  { unfold sorted. rewrite sort_desc_perm. unfold pairs.
    rewrite length_zip, length_seq. lia. }
  assert (sorted = take k sorted ++ drop k sorted) as Hsplit by (by rewrite take_drop).
  pose proof (sort_desc_sorted pairs) as Hsorted. fold sorted in Hsorted.
  exists (take k sorted). split; [done|]. split; [rewrite length_take; lia|].
  split; [rewrite Hsplit in Hsorted; by apply StronglySorted_app_1_l in Hsorted|].
  split; [|split].
  - eapply sublist_NoDup; [|apply (fmap_sublist snd), sublist_take].
    unfold sorted. rewrite sort_desc_perm. unfold pairs.
    rewrite snd_zip by (rewrite length_seq; lia). apply NoDup_seq.
  - apply Forall_forall. intros [p i] Hin. simpl.
    assert ((p, i) ∈ pairs) as Hp.
    { rewrite <-(sort_desc_perm pairs). fold sorted. rewrite Hsplit.
      apply elem_of_app. by left. }
    apply elem_of_zip_seq in Hp as (j & -> & Hj). done.
  - intros j p Hj Hnotin. apply Forall_forall. intros [q i] Hin.
    assert ((p, j) ∈ sorted) as Hp.
    { unfold sorted. rewrite sort_desc_perm. apply elem_of_zip_seq. by exists j. }
    rewrite Hsplit in Hp. apply elem_of_app in Hp as [Hp|Hp].
    + exfalso. apply Hnotin. by apply (list_elem_of_fmap_2 snd) in Hp.
    + rewrite Hsplit in Hsorted.
      apply (StronglySorted_app_1_elem_of _ _ _ _ _ Hsorted Hin Hp).
Qed.
End TopK.

(** ** predict *)

Section Predict.
Context `{E : Engine}.

Local Abbreviation model := (Model Storage).

Lemma class_probabilities_length (m : model) x :
  length (class_probabilities m x) = out_features (classifier (net m)).
Proof. unfold class_probabilities. by rewrite !length_fmap, length_seq. Qed.

Lemma map_labels (d : pydict Z string) (classes : list nat) acc :
  Forall (λ i, is_Some (dict_get d (Z.of_nat i))) classes →
  ∃ labels,
    fold_result (λ mapped_classes label,
                   match dict_get d label with
                   | Some c => Ok (mapped_classes ++ [c])
                   | None => Raise (KeyError (KInt label))
                   end) acc (Z.of_nat <$> classes)
    = Ok (acc ++ labels) ∧
    Forall2 (λ i l, dict_get d (Z.of_nat i) = Some l) classes labels.
Proof.
  intros Hall. revert acc. induction Hall as [|i classes [l Hl] _ IH]; intros acc.
  - exists []. by rewrite app_nil_r.
  - destruct (IH (acc ++ [l])) as (labels & Hf & Hlabels).
    exists (l :: labels). rewrite fmap_cons. cbn [fold_result]. rewrite Hl.
    cbn [result_bind]. rewrite Hf, <-app_assoc. split; [done|]. by constructor.
Qed.

Lemma predict_topk world image_path raw use_gpu k (m : model) :
  fs world !! image_path = Some (Picture raw) →
  (k ≤ out_features (classifier (net m)))%nat →
  (∀ i, (i < out_features (classifier (net m)))%nat →
        is_Some (dict_get (class_to_idx m) (Z.of_nat i))) →
  ∃ (top : list (Q * nat)) labels,
    (predict world image_path use_gpu k m).2 = Ok (top.*1, labels) ∧
    length top = k ∧
    StronglySorted desc top ∧
    NoDup (top.*2) ∧
    Forall (λ pi, class_probabilities m (process_image raw) !! pi.2 = Some pi.1) top ∧
    (∀ j p, class_probabilities m (process_image raw) !! j = Some p → j ∉ top.*2 →
            Forall (λ pi, (p <= pi.1)%Q) top) ∧
    Forall2 (λ pi l, dict_get (class_to_idx m) (Z.of_nat pi.2) = Some l) top labels.
Proof.
  intros Himage Hk Hcover.
  destruct (row_topk_spec k (class_probabilities m (process_image raw)))
    as (top & Htop & Hlen & Hsorted & Hnd & Hrow & Hmax).
  { by rewrite class_probabilities_length. }
  destruct (map_labels (class_to_idx m) (top.*2) []) as (labels & Hfold & Hlabels).
  { apply Forall_fmap. eapply Forall_impl; [exact Hrow|]. intros [p i] Hi. simpl in *.
    apply Hcover. apply lookup_lt_Some in Hi. by rewrite class_probabilities_length in Hi. }
  exists top, labels. split; [|repeat split; try done].
  - unfold predict, bind, model_eval, on_net, zoom, modify, lift, Image_open.
    rewrite Himage. simpl.
    assert (var_data (if use_gpu
                      then Variable_ (cuda (float (from_numpy (process_image raw)))) true
                      else Variable_ (from_numpy (process_image raw)) true)
            = process_image raw) as -> by (by destruct use_gpu).
    change (state_dict (set_training false (net m))) with (state_dict (net m)).
    unfold tensor_topk. cbn [mapM_result result_bind].
    change (map fexp ?l) with (fexp <$> l).
    fold (class_probabilities m (process_image raw)).
    rewrite Htop. cbn [result_bind fmap list_fmap fst snd].
    assert (∀ A (x : A), (if use_gpu then cpu x else x) = x) as Hcpu by (by destruct use_gpu).
    rewrite !Hcpu. unfold numpy, row0. cbn [fst snd]. rewrite Hfold. done.
  - by rewrite Forall2_fmap_l in Hlabels.
Qed.

(** C8 (as the code has it): for every readable image and every model
    returned by [load_checkpoint] whose label table has an entry for each
    of the 102 output positions, [predict] with K = 5 returns exactly 5
    probabilities and 5 labels; the probabilities are in non-increasing
    order, every label belongs to the label table, and the pairs are the
    probabilities and labels of 5 distinct classes, no other class being
    more probable. *)
Theorem predict_top5 ck_path w0 w1 (m : model) world image_path raw use_gpu
    (Hload : load_checkpoint ck_path w0 = (w1, Ok m))
    (Hcover : ∀ i, (0 ≤ i < 102)%Z → is_Some (dict_get (class_to_idx m) i))
    (Himage : fs world !! image_path = Some (Picture raw)) :
  ∃ probs labels,
    (predict world image_path use_gpu 5 m).2 = Ok (probs, labels) ∧
    length probs = 5%nat ∧ length labels = 5%nat ∧
    StronglySorted (λ p q, (q <= p)%Q) probs ∧
    Forall (λ l, l ∈ dict_values (class_to_idx m)) labels ∧
    ∃ classes : list nat,
      NoDup classes ∧
      Forall2 (λ i p, class_probabilities m (process_image raw) !! i = Some p) classes probs ∧
      Forall2 (λ i l, dict_get (class_to_idx m) (Z.of_nat i) = Some l) classes labels ∧
      ∀ j p, class_probabilities m (process_image raw) !! j = Some p → j ∉ classes →
             Forall (λ q, (p <= q)%Q) probs.
Proof.
  apply load_checkpoint_inv in Hload as (state & _ & _ & Hwidth).
  destruct (predict_topk world image_path raw use_gpu 5 m Himage)
    as (top & labels & Hp & Hlen & Hsorted & Hnd & Hrow & Hmax & Hlabels).
  { rewrite Hwidth. lia. }
  { intros i Hi. apply Hcover. rewrite Hwidth in Hi. lia. }
  exists (top.*1), labels. split; [done|].
  split; [by rewrite length_fmap|].
  split; [apply Forall2_length in Hlabels; congruence|].
  split; [by apply (StronglySorted_fmap _ desc)|]. split.
  - eapply Forall2_Forall_r; [exact Hlabels|].
    apply Forall_forall. intros [p i] _ l Hl.
    apply dict_get_Some_elem in Hl. by apply (list_elem_of_fmap_2 snd) in Hl.
  - exists (top.*2). split; [done|]. split; [|split].
    + apply Forall2_fmap, Forall_Forall2_diag. exact Hrow.
    + by apply Forall2_fmap_l.
    + intros j p Hj Hnotin. apply Forall_fmap. exact (Hmax j p Hj Hnotin).
Qed.
End Predict.

(** ** The architecture is an invariant

    Every model the module builds has the architecture, and no operation of
    the module changes the layers or the layout of a model's state. *)

Section Architecture.
Context `{E : Engine}.

Local Abbreviation tensor := (Tensor Storage).
Local Abbreviation param := (Param Storage).
Local Abbreviation module := (Module Storage).
Local Abbreviation model := (Model Storage).

(** Same layers and same state layout. *)
Lemma has_architecture_same (n n' : module) :
  classifier n' = classifier n → layout n' = layout n →
  has_architecture n → has_architecture n'.
Proof.
  intros Hcl Hlay (w1 & b1 & w2 & b2 & Hc & Hl).
  exists w1, b1, w2, b2. split; congruence.
Qed.

Lemma freeze_state_dict (n : module) : state_dict (freeze n) = state_dict n.
Proof.
  unfold state_dict, freeze. simpl. f_equal.
  rewrite <-map_fmap_compose. by apply map_fmap_ext.
Qed.

Lemma set_classifier_freeze_layout sub (n : module) :
  layout (set_classifier sub (freeze n)) = layout (set_classifier sub n).
Proof.
  unfold layout, state_dict, set_classifier, freeze. simpl.
  rewrite !map_fmap_union. f_equal. f_equal.
  apply map_eq. intros k. rewrite !lookup_fmap, !map_lookup_filter, lookup_fmap.
  destruct (parameters n !! k) as [p|]; simpl; [|done].
  destruct (decide (under_classifier k)) as [Hk|Hk].
  - by rewrite !option_guard_False by (simpl; tauto).
  - by rewrite !option_guard_True by done.
Qed.

Lemma create_model_architecture arch (M : pydict string Z) w w' (m : model) o c :
  create_model arch M w = (w', Ok (m, o, c)) → has_architecture (net m).
Proof.
  destruct (create_model_returns arch M w) as (w1 & b1 & w2 & b2 & r & o' & ->).
  intros [= _ <- _ _]. exists w1, b1, w2, b2. split; [done|].
  apply set_classifier_freeze_layout.
Qed.

Lemma load_checkpoint_architecture file_path w w' (m : model) :
  load_checkpoint file_path w = (w', Ok m) → has_architecture (net m).
Proof.
  unfold load_checkpoint, bind.
  destruct (nn_Sequential_head 102 w) as (w1 & b1 & w2 & b2 & r & ->).
  unfold torch_load. simpl.
  destruct (fs w !! file_path) as [[state| |]|]; try done.
  destruct (load_state_dict _ _) as [n [[]|e]] eqn:Hl; simpl; [|done].
  intros [= _ <-]. simpl.
  pose proof (load_state_dict_inv _ _ _ _ Hl) as Hlay.
  destruct (load_state_dict_ok _ _ Hlay) as (n' & Hl' & Hsd & Hcl & _).
  rewrite Hl in Hl'. injection Hl' as <-.
  exists w1, b1, w2, b2. split; [done|]. unfold layout at 1. by rewrite Hsd.
Qed.

Lemma validate_architecture criterion data_loader use_gpu (m : model) :
  has_architecture (net m) →
  has_architecture (net (validate criterion data_loader use_gpu m).1).
Proof. rewrite validate_frame. by apply has_architecture_same. Qed.
Lemma bind_invariant {S A B} (P : S → Prop) (c : Py S A) (k : A → Py S B) s :
  (∀ s, P s → P (c s).1) → (∀ a s, P s → P (k a s).1) → P s → P (bind c k s).1.
Proof.
  intros Hc Hk Hs. unfold bind. specialize (Hc s Hs).
  destruct (c s) as [s' [a|e]]; simpl in *; [by apply Hk|done].
Qed.

Lemma layout_update_parameters (f : gmap string param → gmap string param) (m : model) :
  shape ∘ data <$> f (parameters (net m)) = shape ∘ data <$> parameters (net m) →
  classifier (net (update_parameters f m)) = classifier (net m) ∧
  layout (net (update_parameters f m)) = layout (net m).
Proof.
  intros Hf. split; [done|]. unfold layout, state_dict, update_parameters. simpl.
  by rewrite !map_fmap_union, <-!map_fmap_compose, Hf.
Qed.

Lemma forward_layout inputs (m : model) :
  classifier (net (forward inputs m).1) = classifier (net m) ∧
  layout (net (forward inputs m).1) = layout (net m).
Proof.
  unfold forward, on_net, zoom, Module_forward. simpl.
  destruct (training (net m)); [|done]. split; [done|].
  unfold layout, state_dict. simpl. rewrite !map_fmap_union. f_equal.
  apply map_eq. intros k. rewrite !lookup_fmap, map_lookup_imap.
  by destruct (buffers (net m) !! k).
Qed.

Lemma backward_layout loss (m : model) :
  classifier (net (backward loss m).1) = classifier (net m) ∧
  layout (net (backward loss m).1) = layout (net m).
Proof.
  unfold backward.
  destruct (grad_fn loss) as [[tr cl sd xs [[criterion labels]|]]|]; try done.
  unfold modify. cbn [fst]. apply layout_update_parameters.
  apply map_eq. intros k. rewrite !lookup_fmap, map_lookup_imap.
  destruct (parameters (net m) !! k) as [p|]; simpl; [|done].
  by destruct (requires_grad p).
Qed.

Lemma zero_grad_layout (s : TrainState) :
  classifier (net (ts_model (optimizer_zero_grad s).1)) = classifier (net (ts_model s)) ∧
  layout (net (ts_model (optimizer_zero_grad s).1)) = layout (net (ts_model s)).
Proof.
  unfold optimizer_zero_grad. cbn [fst ts_model]. apply layout_update_parameters.
  induction (opt_params (ts_optimizer s)) as [|name names IH]; simpl; [done|].
  rewrite <-IH. erewrite fmap_alter; [apply alter_id|]; done.
Qed.

Lemma adam_step_param_layout lr name state (ps : gmap string param) :
  shape ∘ data <$> (adam_step_param lr name (state, ps)).2 = shape ∘ data <$> ps.
Proof.
  unfold adam_step_param.
  destruct (ps !! name) as [p|] eqn:Hp; [|done].
  destruct (grad p) as [g|]; [|done].
  destruct (adam_update _ _ _ _ _ _) as [[m1 m2] v]. simpl.
  rewrite fmap_insert. apply insert_id. by rewrite lookup_fmap, Hp.
Qed.

Lemma optimizer_step_layout (s : TrainState) :
  classifier (net (ts_model (optimizer_step s).1)) = classifier (net (ts_model s)) ∧
  layout (net (ts_model (optimizer_step s).1)) = layout (net (ts_model s)).
Proof.
  unfold optimizer_step.
  assert (∀ names acc,
            shape ∘ data <$> (fold_left (λ acc name,
                                adam_step_param (opt_lr (ts_optimizer s)) name acc)
                              names acc).2
            = shape ∘ data <$> acc.2) as Hfold.
  { induction names as [|name names IH]; intros [state ps]; simpl; [done|].
    rewrite IH. apply adam_step_param_layout. }
  specialize (Hfold (opt_params (ts_optimizer s))
                    (opt_state (ts_optimizer s), parameters (net (ts_model s)))).
  destruct (fold_left _ _ _) as [state ps]. simpl in *.
  by apply (layout_update_parameters (λ _, ps)).
Qed.

(** [train] keeps the architecture, whatever it is fed. *)
Lemma train_architecture criterion epochs training_data_loader validation_data_loader
    use_gpu (s : TrainState) :
  has_architecture (net (ts_model s)) →
  has_architecture
    (net (ts_model (train criterion epochs training_data_loader validation_data_loader
                          use_gpu s).1)).
Proof.
  intros Harch.
  set (P := λ s' : TrainState,
         classifier (net (ts_model s')) = classifier (net (ts_model s)) ∧
         layout (net (ts_model s')) = layout (net (ts_model s))).
  assert (∀ A (c : Py model A),
            (∀ m, classifier (net (c m).1) = classifier (net m) ∧
                  layout (net (c m).1) = layout (net m)) →
            ∀ s', P s' → P (on_model c s').1) as Hon.
  { intros A c Hc s' HP. unfold P, on_model, zoom in *. specialize (Hc (ts_model s')).
    destruct (c (ts_model s')) as [m' r]. simpl in *.
    destruct HP, Hc. split; congruence. }
  assert (∀ b (m : model), classifier (net (on_net (modify (set_training b)) m).1)
                           = classifier (net m) ∧
                           layout (net (on_net (modify (set_training b)) m).1)
                           = layout (net m)) as Hmode by done.
  assert (P (train criterion epochs training_data_loader validation_data_loader
                   use_gpu s).1) as [Hcl Hlay]; [|by apply (has_architecture_same (net (ts_model s)))].
  assert (P s) as Hs by done.
  unfold train.
  apply (bind_invariant P); [apply Hon, Hmode| |done].
  intros _ s0 Hs0. apply (bind_invariant P); [|by intros|done].
  clear s0 Hs0. intros s0 Hs0. apply (foldM_invariant P); [|done].
  clear s0 Hs0. intros steps epoch s0 Hs0.
  apply (bind_invariant P); [|by intros|done].
  clear s0 Hs0. intros s0 Hs0. apply (foldM_invariant P); [|done].
  clear s0 Hs0. intros [steps' running_loss] [inputs labels] s0 Hs0.
  unfold train_batch.
  apply (bind_invariant P); [|clear s0 Hs0|done].
  { intros s1 HP. unfold P in *. destruct HP, (zero_grad_layout s1). split; congruence. }
  intros _ s0 Hs0.
  apply (bind_invariant P); [apply Hon, forward_layout|clear s0 Hs0|done].
  intros output s0 Hs0.
  apply (bind_invariant P); [apply Hon, backward_layout|clear s0 Hs0|done].
  intros _ s0 Hs0. apply (bind_invariant P); [|clear s0 Hs0|done].
  { intros s1 HP. unfold P in *. destruct HP, (optimizer_step_layout s1). split; congruence. }
  intros _ s0 Hs0. destruct (decide _); [|done].
  apply (bind_invariant P); [|clear s0 Hs0|done].
  { apply Hon. intros m. by rewrite validate_frame. }
  intros [test_loss accuracy] s0 Hs0.
  apply (bind_invariant P); [by intros|clear s0 Hs0|done].
  intros _ s0 Hs0. apply (bind_invariant P); [apply Hon, Hmode|by intros|done].
Qed.
End Architecture.

(** ** What create_model trains *)

Section Trainable.
Context `{E : Engine}.

Local Abbreviation tensor := (Tensor Storage).
Local Abbreviation param := (Param Storage).
Local Abbreviation module := (Module Storage).
Local Abbreviation model := (Model Storage).

Lemma create_model_unfold arch (M : pydict string Z) w :
  ∃ w1 b1 w2 b2 r,
    let net0 := set_classifier (head 102 w1 b1 w2 b2) (freeze models_densenet121) in
    create_model arch M w
    = (mkWorld (fs w) (stdout w) r,
       Ok (mkModel net0 (swap_keys_and_items M),
           mkOptimizer (filter (λ np, requires_grad np.2 = true)
                               (map_to_list (parameters net0))).*1
                       (1 # 1000) ∅,
           NLLLoss)).
Proof.
  unfold create_model, bind.
  destruct (nn_Sequential_head 102 w) as (w1 & b1 & w2 & b2 & r & ->).
  exists w1, b1, w2, b2, r. cbv zeta.
  set (m := set_classifier _ _).
  destruct (filter (λ np : string * param, requires_grad np.2 = true)
                   (map_to_list (parameters m))) as [|np l] eqn:Hf; [|done].
  exfalso.
  assert (("classifier.fc1.weight", mkParam (mkTensor [500; 1024]%nat w1) true None)
          ∈ filter (λ np : string * param, requires_grad np.2 = true)
                   (map_to_list (parameters m))) as Hin.
  { apply list_elem_of_filter. split; [done|].
    apply elem_of_map_to_list, (attached_head_lookup 102). }
  rewrite Hf in Hin. by apply elem_of_nil in Hin.
Qed.

(** A parameter of a module with the head attached is either one of the
    four head parameters, fresh and trainable, or a parameter the module had
    outside its old classifier. *)
Lemma attached_parameters o w1 b1 w2 b2 (m : module) name p :
  parameters (set_classifier (head o w1 b1 w2 b2) m) !! name = Some p ↔
  (name ∈ head_parameter_names ∧
   parameters (set_classifier (head o w1 b1 w2 b2) m) !! name = Some p ∧
   requires_grad p = true ∧ grad p = None) ∨
  ((name ∉ head_parameter_names) ∧ ¬ under_classifier name ∧ parameters m !! name = Some p).
Proof.
  split.
  - intros Hp. pose proof Hp as Hp'. unfold set_classifier in Hp'. cbn [parameters] in Hp'.
    apply lookup_union_Some_raw in Hp' as [Hl|[Hn Hr]].
    + left. apply elem_of_list_to_map_2 in Hl. cbn in Hl.
      rewrite !elem_of_cons in Hl.
      destruct Hl as [Heq|[Heq|[Heq|[Heq|Hnil]]]];
        [injection Heq as -> ->..|by apply elem_of_nil in Hnil];
        (split; [unfold head_parameter_names; set_solver|done]).
    + right. apply not_elem_of_list_to_map in Hn.
      apply map_lookup_filter_Some in Hr as [Hr Hu]. done.
  - intros [(_ & Hp & _)|(Hn & Hu & Hp)]; [done|].
    unfold set_classifier. cbn [parameters]. apply lookup_union_Some_raw. right. split.
    + by apply not_elem_of_list_to_map.
    + by apply map_lookup_filter_Some.
Qed.

(** X1: in the model [create_model] returns, the parameters that require
    gradients are exactly the four parameters of the new head; the
    optimizer is Adam over exactly those four, with learning rate 0.001 and
    no statistics yet, the criterion is the negative log-likelihood loss,
    and every pretrained parameter outside the old classifier is kept with
    its value, frozen and without gradient. *)
Theorem create_model_trains_head_only arch (M : pydict string Z) w :
  ∃ w' model optimizer criterion,
    create_model arch M w = (w', Ok (model, optimizer, criterion)) ∧
    (∀ name, name ∈ head_parameter_names →
             ∃ p, parameters (net model) !! name = Some p ∧
                  requires_grad p = true ∧ grad p = None) ∧
    (∀ name p, parameters (net model) !! name = Some p →
               (requires_grad p = true ↔ name ∈ head_parameter_names)) ∧
    (∀ name, name ∈ opt_params optimizer ↔ name ∈ head_parameter_names) ∧
    NoDup (opt_params optimizer) ∧
    opt_lr optimizer = (1 # 1000)%Q ∧ opt_state optimizer = ∅ ∧
    criterion = NLLLoss ∧
    (∀ name t, ¬ under_classifier name → pretrained_parameters !! name = Some t →
               parameters (net model) !! name = Some (mkParam t false None)).
Proof.
  destruct (create_model_unfold arch M w) as (w1 & b1 & w2 & b2 & r & Hcreate).
  simpl in Hcreate. rewrite Hcreate. clear Hcreate.
  set (net0 := set_classifier (head 102 w1 b1 w2 b2) (freeze models_densenet121)).
  assert (∀ name, name ∈ head_parameter_names →
                  ∃ p, parameters net0 !! name = Some p ∧
                       requires_grad p = true ∧ grad p = None) as Hhead.
  { intros name Hin.
    destruct (attached_head_lookup 102 w1 b1 w2 b2 (freeze models_densenet121))
      as (H1 & H2 & H3 & H4).
    unfold head_parameter_names in Hin. rewrite !elem_of_cons in Hin.
    destruct Hin as [->|[->|[->|[->|Hnil]]]]; [by eexists..|by apply elem_of_nil in Hnil]. }
  assert (∀ name p, parameters net0 !! name = Some p →
                    (requires_grad p = true ↔ name ∈ head_parameter_names)) as Hgrad.
  { intros name p Hp. apply attached_parameters in Hp as [(Hin & _ & Hr & _)|(Hn & _ & Hp)].
    - done.
    - unfold freeze, models_densenet121 in Hp. cbn [parameters set_parameters] in Hp.
      rewrite !lookup_fmap in Hp. destruct (pretrained_parameters !! name); [|done].
      injection Hp as <-. simpl. split; [done|by intros ?]. }
  eexists _, _, _, _. split; [done|]. cbn [net opt_params opt_lr opt_state].
  split; [exact Hhead|]. split; [exact Hgrad|]. split; [|split; [|repeat split]].
  - intros name. rewrite list_elem_of_fmap. split.
    + intros ([name' p] & -> & [Hr Hp%elem_of_map_to_list]%list_elem_of_filter).
      simpl in *. by apply (Hgrad name' p).
    + intros Hin. destruct (Hhead name Hin) as (p & Hp & Hr & _).
      exists (name, p). split; [done|]. apply list_elem_of_filter. split; [done|].
      by apply elem_of_map_to_list.
  - eapply sublist_NoDup; [apply (NoDup_fst_map_to_list (parameters net0))|].
    apply (fmap_sublist fst), sublist_filter.
  - intros name t Hu Ht. apply attached_parameters. right. split; [|split; [done|]].
    + intros Hin. apply Hu. unfold head_parameter_names in Hin. rewrite !elem_of_cons in Hin.
      destruct Hin as [->|[->|[->|[->|Hnil]]]]; [done..|by apply elem_of_nil in Hnil].
    + unfold freeze, models_densenet121. cbn [parameters set_parameters].
      by rewrite !lookup_fmap, Ht.
Qed.
End Trainable.

(** ** Outcomes of load_checkpoint and save_checkpoint *)

Section Outcomes.
Context `{E : Engine}.

Local Abbreviation tensor := (Tensor Storage).
Local Abbreviation param := (Param Storage).
Local Abbreviation module := (Module Storage).
Local Abbreviation model := (Model Storage).



Lemma new_network_head w :
  ∃ w1 b1 w2 b2 r,
    nn_Sequential [("fc1", Linear 1024 500); ("relu", ReLU);
                   ("fc2", Linear 500 102); ("output", LogSoftmax 1)] w
    = (mkWorld (fs w) (stdout w) r, Ok (head 102 w1 b1 w2 b2)) ∧
    new_network w = set_classifier (head 102 w1 b1 w2 b2) models_densenet121.
Proof.
  destruct (nn_Sequential_head 102 w) as (w1 & b1 & w2 & b2 & r & Hhead).
  exists w1, b1, w2, b2, r. split; [done|]. unfold new_network. by rewrite Hhead.
Qed.


Lemma copy_entry_flags name t (m : module) :
  (training m = true ∧
   ∀ name p, parameters m !! name = Some p → requires_grad p = true ∧ grad p = None) →
  training (copy_entry name t m).1 = true ∧
  ∀ name' p, parameters (copy_entry name t m).1 !! name' = Some p →
             requires_grad p = true ∧ grad p = None.
Proof.
  intros [Htr Hps]. unfold copy_entry.
  destruct (parameters m !! name) as [p0|] eqn:Hp0.
  - destruct (decide _); [|done]. simpl. split; [done|].
    intros name' p. rewrite lookup_insert. destruct (decide (name = name')) as [->|].
    + intros [= <-]. simpl. by apply (Hps name').
    + apply Hps.
  - destruct (buffers m !! name); [|done]. by destruct (decide _).
Qed.

(** X3: a model returned by [load_checkpoint] is in training mode and
    every one of its parameters requires gradients and has none yet: unlike
    the model [create_model] returns, its pretrained layers are not
    frozen. *)
Theorem loaded_model_is_not_frozen file_path w w' (m : model)
    (Hload : load_checkpoint file_path w = (w', Ok m)) :
  training (net m) = true ∧
  ∀ name p, parameters (net m) !! name = Some p → requires_grad p = true ∧ grad p = None.
Proof.
  destruct (new_network_head w) as (w1 & b1 & w2 & b2 & r & Hhead & _).
  unfold load_checkpoint, bind, torch_load in Hload. rewrite Hhead in Hload. simpl in Hload.
  destruct (fs w !! file_path) as [[state| |]|]; try done.
  set (fresh := set_classifier (head 102 w1 b1 w2 b2) models_densenet121) in *.
  set (P := λ n : module,
         training n = true ∧
         ∀ name p, parameters n !! name = Some p → requires_grad p = true ∧ grad p = None).
  assert (P fresh) as Hfresh.
  { split; [done|]. intros name p Hp.
    apply attached_parameters in Hp as [(_ & _ & Hr & Hg)|(_ & _ & Hp)]; [done|].
    unfold models_densenet121 in Hp. cbn [parameters] in Hp. rewrite lookup_fmap in Hp.
    destruct (pretrained_parameters !! name); [|done]. by injection Hp as <-. }
  assert (P (load_state_dict (ck_state_dict state) fresh).1) as Hloaded.
  { unfold load_state_dict, bind.
    pose proof (foldM_invariant P (λ (_ : ()) (kv : string * tensor), copy_entry kv.1 kv.2)
                  (λ a x s Hs, copy_entry_flags x.1 x.2 s Hs)
                  (map_to_list (ck_state_dict state)) tt fresh Hfresh) as Hfold.
    destruct (foldM _ _ _ fresh) as [n [[]|e]]; simpl in *; [|done].
    unfold get. by destruct (filter _ _). }
  destruct (load_state_dict _ fresh) as [n [[]|e]]; simpl in *; [|done].
  by injection Hload as _ <-.
Qed.



(** X5: every model [create_model] returns can be checkpointed: saved with
    any optimizer and epoch count, at any path and in any world, it loads
    back to a model with the same state and the inverted label table. *)
Theorem created_model_loads_back arch (M : pydict string Z) w :
  ∃ w0 created optimizer criterion,
    create_model arch M w = (w0, Ok (created, optimizer, criterion)) ∧
    ∀ file_path o total_epochs w1, ∃ w2 loaded,
      load_checkpoint file_path (save_checkpoint file_path created o total_epochs w1).1
      = (w2, Ok loaded) ∧
      state_dict (net loaded) = state_dict (net created) ∧
      classifier (net loaded) = classifier (net created) ∧
      class_to_idx loaded = swap_keys_and_items M.
Proof.
  destruct (create_model_returns arch M w) as (w1 & b1 & w2 & b2 & r & o & Hcreate).
  eexists _, _, _, _. split; [exact Hcreate|].
  intros file_path o' total_epochs w3.
  set (created := mkModel _ _).
  destruct (load_checkpoint_ok file_path
              (save_checkpoint file_path created o' total_epochs w3).1
              (mkCheckpoint total_epochs "densenet121" (state_dict (net created))
                            (optimizer_state_dict o') (class_to_idx created))
              w1 b1 w2 b2) as (r' & loaded & Hload & Hsd & Hcl).
  { unfold save_checkpoint, torch_save, print, bind, modify. simpl. apply lookup_insert_eq. }
  { apply set_classifier_freeze_layout. }
  eexists _, _. split; [exact Hload|]. by repeat split.
Qed.
End Outcomes.

(** ** More on validate and predict *)

Section Inference.
Context `{E : Engine}.

Local Abbreviation model := (Model Storage).

(** X6: on a non-empty validation set whose batches carry one label per
    example, the loss [validate] returns is the sum of the criterion's
    values on the batches, each computed in inference mode, divided by the
    number of batches. *)
Theorem validate_loss criterion data_loader use_gpu (m : model)
    (Hne : data_loader ≠ [])
    (Hbatches : Forall (λ b, length b.2 = length b.1) data_loader)
    (Hwidth : out_features (classifier (net m)) ≠ 0%nat) :
  ∃ loss accuracy,
    (validate criterion data_loader use_gpu m).2 = Ok (loss, accuracy) ∧
    (loss == sumQ (batch_loss criterion m <$> data_loader) / Qnat (length data_loader))%Q.
Proof.
  eexists _, _. split; [by apply validate_returns|].
  rewrite fold_left_Qplus. by rewrite Qplus_0_l.
Qed.

(** X7: [validate] leaves the model in inference mode, whether it returns
    or raises, and what it does is the same whichever mode the model was in
    when it was called. *)
Theorem validate_sets_inference_mode criterion data_loader use_gpu (m : model) mode :
  training (net (validate criterion data_loader use_gpu m).1) = false ∧
  validate criterion data_loader use_gpu (set_net (set_training mode (net m)) m)
  = validate criterion data_loader use_gpu m.
Proof. split; [by rewrite validate_frame|reflexivity]. Qed.

(** X8: whatever its arguments and whether it returns or raises, [predict]
    changes nothing of the model but its mode: parameters, running
    statistics, layers and label table are as before, and the model is left
    in inference mode. *)
Theorem predict_only_sets_inference_mode world image_path use_gpu topk (m : model) :
  (predict world image_path use_gpu topk m).1 = set_net (set_training false (net m)) m.
Proof.
  unfold predict, bind, model_eval, on_net, zoom, modify, lift. simpl.
  destruct (Image_open image_path world) as [image|e]; [|done].
  destruct (tensor_topk _ _) as [ps|e]; [|done]. simpl.
  destruct (row0 _) as [labels|e]; [|done]. simpl.
  destruct (fold_result _ _ _) as [mapped|e]; [|done].
  by destruct (row0 _).
Qed.

(** X9: when the image cannot be read, [predict] raises before the network
    is run: [FileNotFoundError] for a missing path, [OSError] for a file
    that is not a picture (a checkpoint, for one). *)
Theorem predict_unreadable_image world image_path use_gpu topk (m : model) :
  match fs world !! image_path with
  | None =>
      (predict world image_path use_gpu topk m).2 = Raise (FileNotFoundError image_path)
  | Some (Picture _) => True
  | Some _ => (predict world image_path use_gpu topk m).2 = Raise (OSError image_path)
  end.
Proof.
  unfold predict, bind, model_eval, on_net, zoom, modify, lift, Image_open. simpl.
  by destruct (fs world !! image_path) as [[]|].
Qed.

(** What [predict] computes on a readable image. *)
Lemma predict_result world image_path raw use_gpu k (m : model) :
  fs world !! image_path = Some (Picture raw) →
  (predict world image_path use_gpu k m).2
  = result_bind (row_topk k (class_probabilities m (process_image raw)))
      (λ top, result_bind
                (fold_result (λ mapped_classes label,
                                match dict_get (class_to_idx m) label with
                                | Some c => Ok (mapped_classes ++ [c])
                                | None => Raise (KeyError (KInt label))
                                end) [] top.2)
                (λ mapped_classes, Ok (top.1, mapped_classes))).
Proof.
  intros Himage.
  unfold predict, bind, model_eval, on_net, zoom, modify, lift, Image_open.
  rewrite Himage. simpl.
  assert (var_data (if use_gpu
                    then Variable_ (cuda (float (from_numpy (process_image raw)))) true
                    else Variable_ (from_numpy (process_image raw)) true)
          = process_image raw) as -> by (by destruct use_gpu).
  change (state_dict (set_training false (net m))) with (state_dict (net m)).
  unfold tensor_topk. cbn [mapM_result result_bind].
  change (map fexp ?l) with (fexp <$> l).
  fold (class_probabilities m (process_image raw)).
  destruct (row_topk k _) as [[probs classes]|e]; [|done].
  cbn [result_bind fmap list_fmap fst snd].
  assert (∀ A (x : A), (if use_gpu then cpu x else x) = x) as Hcpu by (by destruct use_gpu).
  rewrite !Hcpu. unfold numpy, row0. cbn [fst snd].
  by destruct (fold_result _ _ _).
Qed.

(** X10: on a readable image, asking for more classes than the network has
    outputs raises [RuntimeError]. *)
Theorem predict_too_many_classes world image_path raw use_gpu k (m : model)
    (Himage : fs world !! image_path = Some (Picture raw))
    (Hk : (out_features (classifier (net m)) < k)%nat) :
  (predict world image_path use_gpu k m).2
  = Raise (RuntimeError "invalid argument: k not in range for dimension").
Proof.
  rewrite (predict_result _ _ raw) by done. unfold row_topk.
  rewrite decide_False; [done|]. rewrite class_probabilities_length. lia.
Qed.

(** X11: on a readable image, for any K up to the number of outputs and
    any model whose label table has an entry for every output position,
    [predict] returns K probabilities and K labels: the probabilities are
    those of K distinct classes in non-increasing order, no class left out
    is more probable than one returned, and each label is the label of the
    class at the same rank. *)
Theorem predict_topk_pairs world image_path raw use_gpu k (m : model)
    (Himage : fs world !! image_path = Some (Picture raw))
    (Hk : (k ≤ out_features (classifier (net m)))%nat)
    (Hcover : ∀ i, (i < out_features (classifier (net m)))%nat →
                   is_Some (dict_get (class_to_idx m) (Z.of_nat i))) :
  ∃ probs labels (classes : list nat),
    (predict world image_path use_gpu k m).2 = Ok (probs, labels) ∧
    length probs = k ∧ length labels = k ∧ length classes = k ∧
    NoDup classes ∧
    StronglySorted (λ p q, (q <= p)%Q) probs ∧
    Forall2 (λ i p, class_probabilities m (process_image raw) !! i = Some p) classes probs ∧
    Forall2 (λ i l, dict_get (class_to_idx m) (Z.of_nat i) = Some l) classes labels ∧
    ∀ j p, class_probabilities m (process_image raw) !! j = Some p → j ∉ classes →
           Forall (λ q, (p <= q)%Q) probs.
Proof.
  destruct (predict_topk world image_path raw use_gpu k m Himage Hk Hcover)
    as (top & labels & Hp & Hlen & Hsorted & Hnd & Hrow & Hmax & Hlabels).
  exists (top.*1), labels, (top.*2). split; [done|].
  split; [by rewrite length_fmap|].
  split; [apply Forall2_length in Hlabels; congruence|].
  split; [by rewrite length_fmap|]. split; [done|].
  split; [by apply (StronglySorted_fmap _ desc)|].
  split; [apply Forall2_fmap, Forall_Forall2_diag; exact Hrow|].
  split; [by apply Forall2_fmap_l|].
  intros j p Hj Hnotin. apply Forall_fmap. exact (Hmax j p Hj Hnotin).
Qed.


End Inference.

(** ** What train leaves alone *)

Section TrainFrame.
Context `{E : Engine}.

Local Abbreviation tensor := (Tensor Storage).
Local Abbreviation param := (Param Storage).
Local Abbreviation module := (Module Storage).
Local Abbreviation model := (Model Storage).

(** A property kept by each step of the loop is kept by [train]. *)
Lemma train_invariant (P : TrainState → Prop) :
  (∀ s, P s → P (on_model model_train s).1) →
  (∀ s, P s → P (optimizer_zero_grad s).1) →
  (∀ inputs s, P s → P (on_model (forward inputs) s).1) →
  (∀ loss s, P s → P (on_model (backward loss) s).1) →
  (∀ s, P s → P (optimizer_step s).1) →
  (∀ criterion data_loader use_gpu s,
     P s → P (on_model (validate criterion data_loader use_gpu) s).1) →
  (∀ line s, P s → P (on_world (print line) s).1) →
  ∀ criterion epochs training_data_loader validation_data_loader use_gpu s,
    P s →
    P (train criterion epochs training_data_loader validation_data_loader use_gpu s).1.
Proof.
  intros Hmode Hzero Hforward Hbackward Hstep Hvalidate Hprint
         criterion epochs tl vl use_gpu s Hs.
  unfold train.
  apply (bind_invariant P); [apply Hmode| |done].
  intros _ s0 Hs0. apply (bind_invariant P); [|by intros|done].
  clear s0 Hs0. intros s0 Hs0. apply (foldM_invariant P); [|done].
  clear s0 Hs0. intros steps epoch s0 Hs0.
  apply (bind_invariant P); [|by intros|done].
  clear s0 Hs0. intros s0 Hs0. apply (foldM_invariant P); [|done].
  clear s0 Hs0. intros [steps' running_loss] [inputs labels] s0 Hs0.
  unfold train_batch.
  apply (bind_invariant P); [apply Hzero|clear s0 Hs0|done].
  intros _ s0 Hs0. apply (bind_invariant P); [apply Hforward|clear s0 Hs0|done].
  intros output s0 Hs0. apply (bind_invariant P); [apply Hbackward|clear s0 Hs0|done].
  intros _ s0 Hs0. apply (bind_invariant P); [apply Hstep|clear s0 Hs0|done].
  intros _ s0 Hs0. destruct (decide _); [|done].
  apply (bind_invariant P); [apply Hvalidate|clear s0 Hs0|done].
  intros [test_loss accuracy] s0 Hs0.
  apply (bind_invariant P); [apply Hprint|clear s0 Hs0|done].
  intros _ s0 Hs0. apply (bind_invariant P); [apply Hmode|by intros|done].
Qed.

(** X13: whatever its arguments and whether it returns or raises, [train]
    writes no file and draws no random number; it only appends training
    log lines to the output; it leaves the model's layers and label table
    and the optimizer's parameter list and learning rate as they were. *)
Theorem train_frame criterion epochs training_data_loader validation_data_loader use_gpu
    (s : TrainState) :
  let s' := (train criterion epochs training_data_loader validation_data_loader
                   use_gpu s).1 in
  fs (ts_world s') = fs (ts_world s) ∧
  rng (ts_world s') = rng (ts_world s) ∧
  (∃ lines, stdout (ts_world s') = stdout (ts_world s) ++ lines ∧
            Forall (λ line, ∃ epoch training_loss test_loss accuracy,
                      line = TrainingLog epoch epochs training_loss test_loss accuracy)
                   lines) ∧
  class_to_idx (ts_model s') = class_to_idx (ts_model s) ∧
  classifier (net (ts_model s')) = classifier (net (ts_model s)) ∧
  opt_params (ts_optimizer s') = opt_params (ts_optimizer s) ∧
  opt_lr (ts_optimizer s') = opt_lr (ts_optimizer s).
Proof.
  cbv zeta.
  set (P := λ s' : TrainState,
         fs (ts_world s') = fs (ts_world s) ∧
         rng (ts_world s') = rng (ts_world s) ∧
         (∃ lines, stdout (ts_world s') = stdout (ts_world s) ++ lines ∧
                   Forall (λ line, ∃ epoch training_loss test_loss accuracy,
                             line = TrainingLog epoch epochs training_loss test_loss accuracy)
                          lines) ∧
         class_to_idx (ts_model s') = class_to_idx (ts_model s) ∧
         classifier (net (ts_model s')) = classifier (net (ts_model s)) ∧
         opt_params (ts_optimizer s') = opt_params (ts_optimizer s) ∧
         opt_lr (ts_optimizer s') = opt_lr (ts_optimizer s)).
  assert (P s) as Hs.
  { unfold P. split; [done|]. split; [done|]. split; [|done].
    exists []. split; [by rewrite app_nil_r|by constructor]. }
  assert (∀ A (c : Py model A),
            (∀ m, class_to_idx (c m).1 = class_to_idx m ∧
                  classifier (net (c m).1) = classifier (net m)) →
            ∀ s', P s' → P (on_model c s').1) as Hon.
  { intros A c Hc s' HP. unfold P, on_model, zoom in *. specialize (Hc (ts_model s')).
    destruct (c (ts_model s')) as [m' r]. simpl in *.
    destruct HP as (? & ? & ? & ? & ? & ? & ?), Hc. repeat split; try done; congruence. }
  (* the loop of [train] is the one of [train_batch] at this [epochs] *)
  unfold train.
  apply (bind_invariant P); [by apply Hon| |done].
  intros _ s0 Hs0. apply (bind_invariant P); [|by intros|done].
  clear s0 Hs0. intros s0 Hs0. apply (foldM_invariant P); [|done].
  clear s0 Hs0. intros steps epoch s0 Hs0.
  apply (bind_invariant P); [|by intros|done].
  clear s0 Hs0. intros s0 Hs0. apply (foldM_invariant P); [|done].
  clear s0 Hs0. intros [steps' running_loss] [inputs labels] s0 Hs0.
  unfold train_batch.
  apply (bind_invariant P); [|clear s0 Hs0|done].
  { intros s1 HP. unfold P in *. unfold optimizer_zero_grad. simpl. exact HP. }
  intros _ s0 Hs0. apply (bind_invariant P); [|clear s0 Hs0|done].
  { apply Hon. intros m. split; [done|]. apply forward_layout. }
  intros output s0 Hs0. apply (bind_invariant P); [|clear s0 Hs0|done].
  { apply Hon. intros m. split; [|apply backward_layout].
    unfold backward. by destruct (grad_fn _) as [[? ? ? ? [[]|]]|]. }
  intros _ s0 Hs0. apply (bind_invariant P); [|clear s0 Hs0|done].
  { intros s1 HP. unfold P in *. unfold optimizer_step.
    destruct (fold_left _ _ _) as [state ps]. simpl. exact HP. }
  intros _ s0 Hs0. destruct (decide _); [|done].
  apply (bind_invariant P); [|clear s0 Hs0|done].
  { apply Hon. intros m. by rewrite validate_frame. }
  intros [test_loss accuracy] s0 Hs0.
  apply (bind_invariant P); [|clear s0 Hs0|done].
  { intros s1 HP. unfold P, on_world, zoom, print, modify in *. simpl.
    destruct HP as (? & ? & (lines & Hout & Hlines) & ? & ? & ? & ?).
    repeat split; try done.
    eexists (lines ++ [_]). rewrite Hout, <-app_assoc. split; [done|].
    apply Forall_app. split; [done|]. constructor; [|done]. by eexists _, _, _, _. }
  intros _ s0 Hs0. apply (bind_invariant P); [by apply Hon|by intros|done].
Qed.

Lemma zero_grad_lookup names (ps : gmap string param) name p :
  ps !! name = Some p → grad p = None →
  foldr (λ name, alter (λ p, set_grad (zeros_like <$> grad p) p) name) ps names !! name
  = Some p.
Proof.
  intros Hp Hg. induction names as [|name' names IH]; simpl; [done|].
  rewrite lookup_alter. destruct (decide (name' = name)) as [->|]; [|done].
  rewrite IH. destruct p as [d r g]. simpl in *. by subst.
Qed.

Lemma adam_steps_lookup lr names state (ps : gmap string param) name p :
  ps !! name = Some p → grad p = None →
  (fold_left (λ acc name, adam_step_param lr name acc) names (state, ps)).2 !! name = Some p.
Proof.
  intros Hp Hg. revert state ps Hp. induction names as [|name' names IH]; intros state ps Hp.
  - done.
  - cbn [fold_left]. destruct (adam_step_param lr name' (state, ps)) as [state' ps'] eqn:Hstep.
    apply IH. unfold adam_step_param in Hstep.
    destruct (ps !! name') as [p'|] eqn:Hp'; [|by injection Hstep as <- <-].
    destruct (grad p') as [g|] eqn:Hg'; [|by injection Hstep as <- <-].
    destruct (adam_update _ _ _ _ _ _) as [[m1 m2] v].
    injection Hstep as <- <-. rewrite lookup_insert_ne; [done|].
    intros ->. congruence.
Qed.

(** X14: a frozen parameter is never changed by [train]: a parameter of the
    model that does not require gradients and has none when [train] is
    called has the same value and flags afterwards, whatever the data, the
    optimizer and the outcome of the call. *)
Theorem train_preserves_frozen criterion epochs training_data_loader validation_data_loader
    use_gpu (s : TrainState) name p
    (Hp : parameters (net (ts_model s)) !! name = Some p)
    (Hfrozen : requires_grad p = false)
    (Hgrad : grad p = None) :
  parameters (net (ts_model (train criterion epochs training_data_loader
                                   validation_data_loader use_gpu s).1)) !! name
  = Some p.
Proof.
  set (P := λ s' : TrainState, parameters (net (ts_model s')) !! name = Some p).
  apply (train_invariant P); try done.
  - intros s' HP. unfold P, optimizer_zero_grad in *. simpl. by apply zero_grad_lookup.
  - intros inputs s' HP. unfold P, on_model, zoom, forward, on_net, Module_forward in *.
    simpl. by destruct (training (net (ts_model s'))).
  - intros loss s' HP. unfold P, on_model, zoom, backward in *.
    destruct (grad_fn loss) as [[tr cl sd xs [[c labels]|]]|]; try done.
    unfold modify. simpl. by rewrite map_lookup_imap, HP; simpl; rewrite Hfrozen.
  - intros s' HP. unfold P, optimizer_step in *.
    pose proof (adam_steps_lookup (opt_lr (ts_optimizer s')) (opt_params (ts_optimizer s'))
                  (opt_state (ts_optimizer s')) _ name p HP Hgrad) as Hl.
    destruct (fold_left _ _ _) as [state ps]. simpl in *. done.
  - intros c l g s' HP. unfold P, on_model, zoom in *.
    pose proof (validate_frame c l g (ts_model s')) as Hv.
    destruct (validate c l g (ts_model s')) as [m' r]. simpl in *. by rewrite Hv.
Qed.
End TrainFrame.

(** ** The first forty steps of train *)

Section TrainSteps.
Context `{E : Engine}.

Local Abbreviation tensor := (Tensor Storage).
Local Abbreviation param := (Param Storage).
Local Abbreviation module := (Module Storage).
Local Abbreviation model := (Model Storage).

Lemma any_requires_grad_flags (m : module) :
  any_requires_grad m = true ↔ ∃ name, trainable_flags m !! name = Some true.
Proof.
  unfold any_requires_grad, trainable_flags. rewrite bool_decide_eq_true, Exists_exists.
  split.
  - intros ([name p] & Hin%elem_of_map_to_list & Hr). exists name.
    rewrite lookup_fmap, Hin. simpl in *. by rewrite Hr.
  - intros (name & Hl). rewrite lookup_fmap in Hl.
    destruct (parameters m !! name) as [p|] eqn:Hp; [|done]. injection Hl as Hr.
    exists (name, p). split; [by apply elem_of_map_to_list|done].
Qed.

Lemma any_requires_grad_same (m m' : module) :
  trainable_flags m' = trainable_flags m →
  any_requires_grad m = true → any_requires_grad m' = true.
Proof. rewrite !any_requires_grad_flags. by intros ->. Qed.

Lemma zero_grad_flags (s : TrainState) :
  trainable_flags (net (ts_model (optimizer_zero_grad s).1)) = trainable_flags (net (ts_model s)).
Proof.
  unfold optimizer_zero_grad, trainable_flags. simpl.
  induction (opt_params (ts_optimizer s)) as [|name names IH]; simpl; [done|].
  rewrite <-IH. erewrite fmap_alter; [apply alter_id|]; done.
Qed.

Lemma backward_flags (m : model) tr cl sd xs criterion labels :
  trainable_flags
    (net (update_parameters
            (map_imap (λ name p,
               Some (if requires_grad p
                     then let g := mkTensor (shape (data p))
                                     (backward_grad criterion labels tr cl sd xs name) in
                          set_grad (Some (match grad p with
                                          | Some g0 => tensor_add g0 g
                                          | None => g
                                          end)) p
                     else p))) m))
  = trainable_flags (net m).
Proof.
  unfold trainable_flags, update_parameters. simpl.
  apply map_eq. intros k. rewrite !lookup_fmap, map_lookup_imap.
  destruct (parameters (net m) !! k) as [p|]; simpl; [|done].
  destruct (requires_grad p) eqn:Hr; simpl; by rewrite ?Hr.
Qed.

Lemma adam_step_param_flags lr name state (ps : gmap string param) :
  requires_grad <$> (adam_step_param lr name (state, ps)).2 = requires_grad <$> ps.
Proof.
  unfold adam_step_param.
  destruct (ps !! name) as [p|] eqn:Hp; [|done].
  destruct (grad p) as [g|]; [|done].
  destruct (adam_update _ _ _ _ _ _) as [[m1 m2] v]. simpl.
  rewrite fmap_insert. apply insert_id. by rewrite lookup_fmap, Hp.
Qed.

Lemma optimizer_step_flags (s : TrainState) :
  trainable_flags (net (ts_model (optimizer_step s).1)) = trainable_flags (net (ts_model s)).
Proof.
  unfold optimizer_step, trainable_flags.
  assert (∀ names acc,
            requires_grad <$> (fold_left (λ acc name,
                                 adam_step_param (opt_lr (ts_optimizer s)) name acc)
                               names acc).2
            = requires_grad <$> acc.2) as Hfold.
  { induction names as [|name names IH]; intros [state ps]; simpl; [done|].
    rewrite IH. apply adam_step_param_flags. }
  specialize (Hfold (opt_params (ts_optimizer s))
                    (opt_state (ts_optimizer s), parameters (net (ts_model s)))).
  by destruct (fold_left _ _ _) as [state ps].
Qed.

(** One pass through zero_grad, forward, backward and step succeeds on a
    model in training mode with a trainable parameter, and hands the value
    of the loss to what follows. *)
Lemma train_step_runs {A} (criterion : Criterion) (use_gpu : bool)
    (inputs : list Image) (labels : list Z) (k : Q → Py TrainState A)
    (s : TrainState) :
  any_requires_grad (net (ts_model s)) = true →
  training (net (ts_model s)) = true →
  ∃ s1 loss,
    (optimizer_zero_grad ;;
     output <- on_model (forward (if use_gpu then Variable_ (cuda (float inputs)) false
                                  else Variable_ inputs false)) ;;
     on_model (backward (criterion_apply criterion output
                           (if use_gpu then Variable_ (cuda (long labels)) false
                            else Variable_ labels false))) ;;
     optimizer_step ;;
     k (var_data (criterion_apply criterion output
                    (if use_gpu then Variable_ (cuda (long labels)) false
                     else Variable_ labels false))))%py s
    = k loss s1 ∧
    ts_world s1 = ts_world s ∧
    any_requires_grad (net (ts_model s1)) = true ∧
    training (net (ts_model s1)) = true.
Proof.
  intros Hany Htr.
  assert ((if use_gpu then Variable_ (cuda (float inputs)) false
           else Variable_ inputs false) = Variable_ inputs false) as -> by (by destruct use_gpu).
  assert ((if use_gpu then Variable_ (cuda (long labels)) false
           else Variable_ labels false) = Variable_ labels false) as -> by (by destruct use_gpu).
  unfold bind at 1.
  set (s0 := (optimizer_zero_grad s).1).
  assert (optimizer_zero_grad s = (s0, Ok tt)) as -> by done.
  assert (any_requires_grad (net (ts_model s0)) = true) as Hany0.
  { eapply any_requires_grad_same; [apply zero_grad_flags|done]. }
  assert (training (net (ts_model s0)) = true) as Htr0 by done.
  assert (ts_world s0 = ts_world s) as Hw0 by done.
  clearbody s0.
  unfold bind at 1. unfold on_model at 1, zoom, forward, on_net, zoom, Module_forward.
  rewrite Hany0, Htr0. cbn [volatile Variable_ var_data fst snd].
  set (m1 := set_net _ (ts_model s0)).
  set (output := mkVariable _ _ _).
  unfold bind at 1. unfold on_model at 1, zoom, backward, criterion_apply.
  cbn [grad_fn output g_training g_classifier g_state g_inputs g_loss].
  unfold modify. cbn [ts_model ts_world ts_optimizer fst snd var_data volatile Variable_].
  set (m2 := update_parameters _ m1).
  set (s2 := mkTrainState _ m2 _).
  assert (any_requires_grad (net (ts_model s2)) = true) as Hany2.
  { eapply any_requires_grad_same; [|exact Hany0]. subst s2 m2. cbn [ts_model].
    by rewrite backward_flags. }
  assert (training (net (ts_model s2)) = true) as Htr2 by done.
  assert (ts_world s2 = ts_world s0) as Hw2 by done.
  clearbody s2.
  unfold bind at 1.
  set (s3 := (optimizer_step s2).1).
  assert (optimizer_step s2 = (s3, Ok tt)) as ->.
  { subst s3. unfold optimizer_step. by destruct (fold_left _ _ _). }
  exists s3, (criterion_call criterion (var_data output) labels).
  split; [done|]. split; [|split].
  - subst s3. unfold optimizer_step. destruct (fold_left _ _ _). simpl. congruence.
  - eapply any_requires_grad_same; [apply optimizer_step_flags|done].
  - subst s3. unfold optimizer_step. by destruct (fold_left _ _ _).
Qed.
(** A batch of [train]: after the update, either the step count is a
    multiple of 40 and validation and logging follow, or the batch is done. *)
Lemma train_batch_runs criterion epochs validation_data_loader (use_gpu : bool) epoch
    (steps : Z) (running_loss : Q) (inputs : list Image) (labels : list Z) (s : TrainState) :
  any_requires_grad (net (ts_model s)) = true →
  training (net (ts_model s)) = true →
  ∃ s1 loss,
    train_batch criterion epochs validation_data_loader use_gpu 40 epoch
                (steps, running_loss) (inputs, labels) s
    = (if decide ((steps + 1) `mod` 40 = 0)%Z
       then (la <- on_model (validate criterion validation_data_loader use_gpu) ;;
             on_world (print (TrainingLog (epoch + 1) epochs
                                          ((running_loss + loss) / inject_Z 40)
                                          la.1 la.2)) ;;
             on_model model_train ;;
             ret ((steps + 1)%Z, 0%Q))%py s1
       else (s1, Ok ((steps + 1)%Z, (running_loss + loss)%Q))) ∧
    ts_world s1 = ts_world s ∧
    any_requires_grad (net (ts_model s1)) = true ∧
    training (net (ts_model s1)) = true.
Proof.
  intros Hany Htr.
  destruct (train_step_runs criterion use_gpu inputs labels
              (λ loss,
                 if decide ((steps + 1) `mod` 40 = 0)%Z
                 then (la <- on_model (validate criterion validation_data_loader use_gpu) ;;
                       let '(test_loss, accuracy) := la in
                       on_world (print (TrainingLog (epoch + 1) epochs
                                                    ((running_loss + loss) / inject_Z 40)
                                                    test_loss accuracy)) ;;
                       on_model model_train ;;
                       ret ((steps + 1)%Z, 0%Q))%py
                 else ret ((steps + 1)%Z, (running_loss + loss)%Q))
              s Hany Htr) as (s1 & loss & Heq & Hw & Hany1 & Htr1).
  exists s1, loss. split; [|done].
  etrans; [exact Heq|]. destruct (decide _); [|done].
  unfold bind. by destruct (on_model _ s1) as [s2 [[test_loss accuracy]|err]].
Qed.

(** Fewer than forty steps: the batches are consumed without validation. *)
Lemma train_batches_quiet criterion epochs validation_data_loader use_gpu epoch
    (batches : list (list Image * list Z)) (steps : nat) running_loss (s : TrainState) :
  any_requires_grad (net (ts_model s)) = true →
  training (net (ts_model s)) = true →
  (steps + length batches < 40)%nat →
  ∃ s1 running_loss',
    foldM (train_batch criterion epochs validation_data_loader use_gpu 40 epoch)
          (Z.of_nat steps, running_loss) batches s
    = (s1, Ok (Z.of_nat (steps + length batches), running_loss')) ∧
    ts_world s1 = ts_world s ∧
    any_requires_grad (net (ts_model s1)) = true ∧
    training (net (ts_model s1)) = true.
Proof.
  revert steps running_loss s.
  induction batches as [|[inputs labels] batches IH]; intros steps running_loss s Hany Htr Hlt.
  - exists s, running_loss. simpl. by rewrite Nat.add_0_r.
  - simpl in Hlt. cbn [foldM]. unfold bind.
    destruct (train_batch_runs criterion epochs validation_data_loader use_gpu epoch
                (Z.of_nat steps) running_loss inputs labels s Hany Htr)
      as (s1 & loss & -> & Hw & Hany1 & Htr1).
    rewrite decide_False.
    2:{ rewrite Z.mod_small; lia. }
    replace (Z.of_nat steps + 1)%Z with (Z.of_nat (S steps)) by lia.
    destruct (IH (S steps) (running_loss + loss)%Q s1 Hany1 Htr1 ltac:(lia))
      as (s2 & rl & -> & Hw2 & Hany2 & Htr2).
    exists s2, rl. replace (S steps + length batches)%nat
      with (steps + length ((inputs, labels) :: batches))%nat by (simpl; lia).
    split; [done|]. split; [congruence|done].
Qed.

(** With no validation batch, the fortieth step raises. *)
Lemma train_batches_raise criterion epochs use_gpu epoch
    (batches : list (list Image * list Z)) (steps : nat) running_loss (s : TrainState) :
  any_requires_grad (net (ts_model s)) = true →
  training (net (ts_model s)) = true →
  (steps < 40 ≤ steps + length batches)%nat →
  ∃ s1,
    foldM (train_batch criterion epochs [] use_gpu 40 epoch)
          (Z.of_nat steps, running_loss) batches s
    = (s1, Raise ZeroDivisionError) ∧
    ts_world s1 = ts_world s.
Proof.
  revert steps running_loss s.
  induction batches as [|[inputs labels] batches IH]; intros steps running_loss s Hany Htr Hlt.
  - simpl in Hlt. lia.
  - simpl in Hlt. cbn [foldM]. unfold bind at 1.
    destruct (train_batch_runs criterion epochs [] use_gpu epoch
                (Z.of_nat steps) running_loss inputs labels s Hany Htr)
      as (s1 & loss & -> & Hw & Hany1 & Htr1).
    destruct (decide (steps = 39%nat)) as [->|Hne].
    + rewrite decide_True by done.
      unfold bind at 1. unfold on_model at 1, zoom.
      assert ((validate criterion [] use_gpu (ts_model s1)).2 = Raise ZeroDivisionError)
        as Hv by reflexivity.
      destruct (validate criterion [] use_gpu (ts_model s1)) as [m' r]. simpl in Hv. subst r.
      eexists. split; [done|]. simpl. done.
    + rewrite decide_False.
      2:{ rewrite Z.mod_small; lia. }
      replace (Z.of_nat steps + 1)%Z with (Z.of_nat (S steps)) by lia.
      destruct (IH (S steps) (running_loss + loss)%Q s1 Hany1 Htr1 ltac:(lia))
        as (s2 & -> & Hw2).
      exists s2. split; [done|congruence].
Qed.
Local Abbreviation train_epoch criterion epochs validation_data_loader use_gpu
    training_data_loader :=
  (λ (steps epoch : Z),
     sr <- foldM (train_batch criterion epochs validation_data_loader use_gpu 40 epoch)
                 (steps, 0%Q) training_data_loader ;;
     ret sr.1)%py.


Lemma train_epochs_raise criterion epochs use_gpu
    (training_data_loader : list (list Image * list Z))
    (es : list Z) (steps : nat) (s : TrainState) :
  any_requires_grad (net (ts_model s)) = true →
  training (net (ts_model s)) = true →
  (steps < 40 ≤ steps + length es * length training_data_loader)%nat →
  ∃ s1,
    foldM (train_epoch criterion epochs [] use_gpu training_data_loader)
          (Z.of_nat steps) es s
    = (s1, Raise ZeroDivisionError) ∧
    ts_world s1 = ts_world s.
Proof.
  revert steps s. induction es as [|epoch es IH]; intros steps s Hany Htr Hlt.
  - simpl in Hlt. lia.
  - simpl in Hlt. cbn [foldM]. unfold bind at 1. unfold bind at 1.
    destruct (decide (40 ≤ steps + length training_data_loader)%nat) as [Hreach|Hshort].
    + destruct (train_batches_raise criterion epochs use_gpu epoch
                  training_data_loader steps 0%Q s Hany Htr ltac:(lia))
        as (s1 & -> & Hw).
      by exists s1.
    + destruct (train_batches_quiet criterion epochs [] use_gpu epoch
                  training_data_loader steps 0%Q s Hany Htr ltac:(lia))
        as (s1 & rl & -> & Hw & Hany1 & Htr1).
      cbn [ret fst].
      destruct (IH (steps + length training_data_loader)%nat s1 Hany1 Htr1 ltac:(lia))
        as (s2 & -> & Hw2).
      exists s2. split; [done|congruence].
Qed.

Lemma model_train_runs (s : TrainState) :
  any_requires_grad (net (ts_model s)) = true →
  ∃ s0, on_model model_train s = (s0, Ok tt) ∧
        ts_world s0 = ts_world s ∧
        any_requires_grad (net (ts_model s0)) = true ∧
        training (net (ts_model s0)) = true.
Proof.
  intros Hany. eexists. split; [reflexivity|]. simpl. split; [done|]. split; [|done].
  revert Hany. by apply any_requires_grad_same.
Qed.


(** X16: with an empty validation loader, [train] that reaches its fortieth
    optimisation step (epochs times batches per epoch is at least forty)
    raises ZeroDivisionError from the validation pass, having printed
    nothing and changed no file. *)
Theorem train_empty_validation_loader_raises criterion (epochs : Z)
    (training_data_loader : list (list Image * list Z))
    (use_gpu : bool) (s : TrainState) :
  any_requires_grad (net (ts_model s)) = true →
  (40 ≤ Z.to_nat epochs * length training_data_loader)%nat →
  ∃ s1, train criterion epochs training_data_loader [] use_gpu s
        = (s1, Raise ZeroDivisionError) ∧
        ts_world s1 = ts_world s.
Proof.
  intros Hany Hlt. unfold train. unfold bind at 1.
  destruct (model_train_runs s Hany) as (s0 & -> & Hw0 & Hany0 & Htr0).
  cbv zeta. unfold bind at 1.
  destruct (train_epochs_raise criterion epochs use_gpu
              training_data_loader (Z.of_nat <$> seq 0 (Z.to_nat epochs)) 0 s0 Hany0 Htr0)
    as (s1 & Heq & Hw).
  { rewrite length_fmap, length_seq. lia. }
  change (Z.of_nat 0) with 0%Z in Heq. rewrite Heq.
  exists s1. split; [done|congruence].
Qed.
End TrainSteps.

(** ** Labels that share an index, and checkpoints of trained models *)

Section LabelTable.
Context {K V : Type} `{EqDecision K, EqDecision V}.

Lemma swap_entries_last (l : list (K * V)) (acc : pydict V K) (i : V) :
  dict_get (swap_entries acc l) i
  = match last (filter (λ kv, kv.2 = i) l) with
    | Some kv => Some kv.1
    | None => dict_get acc i
    end.
Proof.
  revert acc. induction l as [|[k0 v0] l IH]; intros acc; [done|].
  unfold swap_entries in *. cbn [fold_left fst snd]. rewrite IH.
  rewrite filter_cons. cbn [snd]. rewrite dict_get_set.
  destruct (decide (v0 = i)) as [->|Hne].
  - rewrite last_cons. destruct (last _); [done|]. by rewrite decide_True.
  - destruct (last _); [done|]. by rewrite decide_False by done.
Qed.
End LabelTable.

Section Composition.
Context `{E : Engine}.

Local Abbreviation model := (Model Storage).

(** X17: when several labels of the mapping given to [create_model] share
    an index, the label table of the model keeps, for each index, the label
    that comes last in the mapping; an index of no label has no entry. *)
Theorem create_model_class_to_idx_last_label arch (M : pydict string Z) w
    (Hkeys : NoDup (dict_keys M)) :
  ∃ w' created optimizer criterion,
    create_model arch M w = (w', Ok (created, optimizer, criterion)) ∧
    ∀ i, dict_get (class_to_idx created) i = fst <$> last (filter (λ kv, kv.2 = i) M).
Proof.
  destruct (create_model_returns arch M w) as (w1 & b1 & w2 & b2 & r & o & ->).
  eexists _, _, _, _. split; [done|]. simpl. intros i.
  unfold swap_keys_and_items, dict_keys.
  rewrite (swap_by_keys M M []) by (intros; by apply dict_get_elem).
  rewrite swap_entries_last. by destruct (last _).
Qed.

(** X18: a model of the program's architecture can be checkpointed after
    [train], whatever [train] was given and whether it returned or raised:
    saved with any optimizer and epoch count at any path, the model that
    [train] leaves loads back with the same state dictionary and label
    table, and [predict] gives the same result on both. *)
Theorem trained_model_loads_back criterion epochs training_data_loader
    validation_data_loader use_gpu (s : TrainState)
    (Harch : has_architecture (net (ts_model s))) :
  let trained := ts_model (train criterion epochs training_data_loader
                                 validation_data_loader use_gpu s).1 in
  ∀ file_path o total_epochs w, ∃ w' loaded,
    load_checkpoint file_path (save_checkpoint file_path trained o total_epochs w).1
    = (w', Ok loaded) ∧
    state_dict (net loaded) = state_dict (net trained) ∧
    class_to_idx loaded = class_to_idx trained ∧
    ∀ world image_path gpu topk,
      (predict world image_path gpu topk loaded).2
      = (predict world image_path gpu topk trained).2.
Proof.
  intros trained file_path o total_epochs w.
  destruct (train_architecture criterion epochs training_data_loader
              validation_data_loader use_gpu s Harch)
    as (w1 & b1 & w2 & b2 & Hcl & Hlay).
  fold trained in Hcl, Hlay.
  destruct (load_checkpoint_ok file_path
              (save_checkpoint file_path trained o total_epochs w).1
              (mkCheckpoint total_epochs "densenet121" (state_dict (net trained))
                            (optimizer_state_dict o) (class_to_idx trained))
              w1 b1 w2 b2) as (r & n & Hload & Hsd & Hcl').
  { unfold save_checkpoint, torch_save, print, bind, modify. simpl. apply lookup_insert_eq. }
  { exact Hlay. }
  eexists _, _. split; [exact Hload|]. simpl in *.
  assert (classifier n = classifier (net trained)) as Hc by congruence.
  repeat split; try done.
  intros. by apply predict_congr.
Qed.
End Composition.

(** ** The definitions at work on the small engine *)

Import Flowers.

Lemma covered_indices (d : pydict Z string) n :
  Forall (λ i, is_Some (dict_get d (Z.of_nat i))) (seq 0 n) →
  ∀ i, (0 ≤ i < Z.of_nat n)%Z → is_Some (dict_get d i).
Proof.
  intros Hall i Hi. rewrite Forall_forall in Hall.
  rewrite <-(Z2Nat.id i) by lia. apply Hall, elem_of_seq. lia.
Qed.

Lemma create_flower_model arch n :
  create_model arch (labels_of n) world0
  = (mkWorld ∅ [] 4%Z, Ok (flower_model n, flower_optimizer, tt)).
Proof. reflexivity. Qed.

Lemma flower_model_architecture n : has_architecture (net (flower_model n)).
Proof. exists 0%Z, 1%Z, 2%Z, 3%Z. split; reflexivity. Qed.

(** The checkpoint on [disk n] and what loading it gives. *)
Lemma disk_checkpoint n :
  fs (disk n) !! "flowers.pth"
  = Some (Pickled (mkCheckpoint 7 "densenet121" (state_dict (net (flower_model n)))
                                (optimizer_state_dict flower_optimizer)
                                (class_to_idx (flower_model n)))).
Proof. reflexivity. Qed.

Lemma disk_picture n : fs (disk n) !! "image.jpg" = Some (Picture 50%Z).
Proof. reflexivity. Qed.

Lemma disk_load n :
  load_checkpoint "flowers.pth" (disk n) = (loaded_disk n, Ok (loaded_flower_model n)).
Proof. reflexivity. Qed.

(** The round trip of a three-class model saved at epoch 7. *)
Lemma checkpoint_round_trip_flowers :
  has_architecture (net (flower_model 3)) ∧
  ∃ w1 w2 loaded,
    save_checkpoint "flowers.pth" (flower_model 3) trained_optimizer 7 world0 = (w1, Ok tt) ∧
    load_checkpoint "flowers.pth" w1 = (w2, Ok loaded) ∧
    state_dict (net loaded) = state_dict (net (flower_model 3)) ∧
    class_to_idx loaded = class_to_idx (flower_model 3) ∧
    (∀ mode xs, network_output mode (net loaded) xs
                = network_output mode (net (flower_model 3)) xs) ∧
    (∀ world image_path use_gpu topk,
       (predict world image_path use_gpu topk loaded).2
       = (predict world image_path use_gpu topk (flower_model 3)).2) ∧
    last (stdout w2) = Some (CheckpointLoaded "flowers.pth" "densenet121" 7).
Proof.
  split.
  - apply flower_model_architecture.
  - apply (checkpoint_round_trip (E := engine)
             "flowers.pth" (flower_model 3) trained_optimizer 7 world0).
    apply flower_model_architecture.
Defined.

(** On a mapping of two classes the head is still 102 wide. *)
Lemma create_model_width_differs_from_class_count :
  ∃ w' m o c,
    create_model "densenet121" (labels_of 2) world0 = (w', Ok (m, o, c)) ∧
    dict_len (labels_of 2) = 2%nat ∧
    out_features (classifier (net m)) = 102%nat ∧
    out_features (classifier (net m)) ≠ dict_len (labels_of 2).
Proof.
  eexists _, _, _, _. split; [apply create_flower_model|].
  split; [reflexivity|]. split; [reflexivity|]. vm_compute. lia.
Qed.

(** The inverse table of a mapping of three classes. *)
Lemma create_model_class_to_idx_inverse_flowers :
  NoDup (dict_keys (labels_of 3)) ∧ NoDup (dict_values (labels_of 3)) ∧
  ∃ w' model optimizer criterion,
    create_model "densenet121" (labels_of 3) world0 = (w', Ok (model, optimizer, criterion)) ∧
    ∀ i k, dict_get (class_to_idx model) i = Some k ↔ dict_get (labels_of 3) k = Some i.
Proof.
  assert (NoDup (dict_keys (labels_of 3))) as Hkeys by (by apply (bool_decide_unpack _); vm_compute).
  assert (NoDup (dict_values (labels_of 3))) as Hvalues by (by apply (bool_decide_unpack _); vm_compute).
  split; [exact Hkeys|]. split; [exact Hvalues|].
  exact (create_model_class_to_idx_inverse (E := engine)
           "densenet121" (labels_of 3) world0 Hkeys Hvalues).
Defined.

(** For the identifier ["vgg16"] a model is returned, not an error. *)
Lemma create_model_vgg16_returns_model :
  "vgg16" ≠ "densenet121" ∧
  ∃ w' built, create_model "vgg16" (labels_of 2) world0 = (w', Ok built).
Proof. split; [done|]. eexists _, _. apply create_flower_model. Qed.

(** Two checkpoints that record different optimizer states (a fresh
    optimizer, and the optimizer after a training step) load to the same
    model, the same printed lines and the same initialiser state: nothing
    in memory after the load depends on the recorded statistics. *)
Lemma load_checkpoint_forgets_optimizer :
  let fresh := (save_checkpoint "flowers.pth" (flower_model 2) flower_optimizer 7 world0).1 in
  let trained := (save_checkpoint "flowers.pth" (flower_model 2) trained_optimizer 7 world0).1 in
  step <$> sd_state (optimizer_state_dict flower_optimizer) !! "classifier.fc2.bias" = None ∧
  step <$> sd_state (optimizer_state_dict trained_optimizer) !! "classifier.fc2.bias"
  = Some 1%nat ∧
  (load_checkpoint "flowers.pth" fresh).2 = Ok (loaded_flower_model 2) ∧
  (load_checkpoint "flowers.pth" trained).2 = Ok (loaded_flower_model 2) ∧
  stdout (load_checkpoint "flowers.pth" fresh).1
  = stdout (load_checkpoint "flowers.pth" trained).1 ∧
  rng (load_checkpoint "flowers.pth" fresh).1 = rng (load_checkpoint "flowers.pth" trained).1.
Proof.
  intros fresh trained. split; [reflexivity|]. split; [vm_compute; reflexivity|].
  repeat split; reflexivity.
Qed.

(** Loading the checkpoint of a three-class model. *)
Lemma load_checkpoint_restores_model_only_flowers :
  let state := mkCheckpoint 7 "densenet121" (state_dict (net (flower_model 3)))
                            (optimizer_state_dict flower_optimizer)
                            (class_to_idx (flower_model 3)) in
  fs (disk 3) !! "flowers.pth" = Some (Pickled state) ∧
  load_checkpoint "flowers.pth" (disk 3) = (loaded_disk 3, Ok (loaded_flower_model 3)) ∧
  state_dict (net (loaded_flower_model 3)) = ck_state_dict state ∧
  class_to_idx (loaded_flower_model 3) = ck_class_to_idx state ∧
  ∀ o, load_checkpoint "flowers.pth"
         (mkWorld (<["flowers.pth" := Pickled (set_ck_optimizer o state)]> (fs (disk 3)))
                  (stdout (disk 3)) (rng (disk 3)))
       = (mkWorld (<["flowers.pth" := Pickled (set_ck_optimizer o state)]> (fs (disk 3)))
                  (stdout (loaded_disk 3)) (rng (loaded_disk 3)),
          Ok (loaded_flower_model 3)).
Proof.
  intros state.
  assert (fs (disk 3) !! "flowers.pth" = Some (Pickled state)) as Hfile by reflexivity.
  assert (load_checkpoint "flowers.pth" (disk 3) = (loaded_disk 3, Ok (loaded_flower_model 3)))
    as Hload by reflexivity.
  split; [exact Hfile|]. split; [exact Hload|].
  exact (load_checkpoint_restores_model_only (E := engine)
           "flowers.pth" (disk 3) state (loaded_disk 3) (loaded_flower_model 3) Hfile Hload).
Defined.

(** On batches of unequal size, one example out of four is classified
    correctly and [validate] reports one half. *)
Lemma validate_accuracy_differs_from_example_ratio :
  ∃ loss accuracy,
    (validate tt validation_batches false (flower_model 3)).2 = Ok (loss, accuracy) ∧
    (accuracy == 1 # 2)%Q ∧
    (example_accuracy (flower_model 3) validation_batches == 1 # 4)%Q ∧
    ¬ (accuracy == example_accuracy (flower_model 3) validation_batches)%Q.
Proof.
  eexists _, _. split; [vm_compute; reflexivity|].
  split; [reflexivity|]. split; [reflexivity|].
  intros Heq. vm_compute in Heq. discriminate.
Qed.

(** The accuracy on that validation set. *)
Lemma validate_accuracy_flowers :
  validation_batches ≠ [] ∧
  Forall (λ b : list Z * list Z, b.1 ≠ [] ∧ length b.2 = length b.1) validation_batches ∧
  out_features (classifier (net (flower_model 3))) ≠ 0%nat ∧
  ∃ loss accuracy,
    (validate tt validation_batches false (flower_model 3)).2 = Ok (loss, accuracy) ∧
    (accuracy == mean_batch_accuracy (flower_model 3) validation_batches)%Q ∧
    (0 <= accuracy)%Q ∧ (accuracy <= 1)%Q ∧
    (∀ n, Forall (λ b, length b.1 = n) validation_batches →
          (accuracy == example_accuracy (flower_model 3) validation_batches)%Q).
Proof.
  assert (validation_batches ≠ []) as Hne by done.
  assert (Forall (λ b : list Z * list Z, b.1 ≠ [] ∧ length b.2 = length b.1)
                 validation_batches) as Hbatches by (by repeat constructor).
  assert (out_features (classifier (net (flower_model 3))) ≠ 0%nat) as Hwidth
    by (vm_compute; lia).
  split; [exact Hne|]. split; [exact Hbatches|]. split; [exact Hwidth|].
  exact (validate_accuracy (E := engine) tt validation_batches false (flower_model 3)
           Hne Hbatches Hwidth).
Defined.

(** On a loaded model of five classes, the picture's most probable class
    is position 50, which has no label. *)
Lemma predict_top5_raises_on_unlabelled_class :
  load_checkpoint "flowers.pth" (disk 5) = (loaded_disk 5, Ok (loaded_flower_model 5)) ∧
  dict_len (class_to_idx (loaded_flower_model 5)) = 5%nat ∧
  fs (disk 5) !! "image.jpg" = Some (Picture 50%Z) ∧
  (predict (disk 5) "image.jpg" false 5 (loaded_flower_model 5)).2
  = Raise (KeyError (KInt 50)).
Proof.
  split; [reflexivity|]. split; [reflexivity|]. split; [reflexivity|].
  vm_compute. reflexivity.
Qed.

Lemma flower_labels_cover :
  Forall (λ i, is_Some (dict_get (class_to_idx (loaded_flower_model 102)) (Z.of_nat i)))
         (seq 0 102).
Proof. by apply (bool_decide_unpack _); vm_compute. Qed.

(** The five most probable classes of a picture, on a loaded model of 102
    classes. *)
Lemma predict_top5_flowers :
  load_checkpoint "flowers.pth" (disk 102) = (loaded_disk 102, Ok (loaded_flower_model 102)) ∧
  (∀ i, (0 ≤ i < 102)%Z → is_Some (dict_get (class_to_idx (loaded_flower_model 102)) i)) ∧
  fs (disk 102) !! "image.jpg" = Some (Picture 50%Z) ∧
  ∃ probs labels,
    (predict (disk 102) "image.jpg" false 5 (loaded_flower_model 102)).2 = Ok (probs, labels) ∧
    length probs = 5%nat ∧ length labels = 5%nat ∧
    StronglySorted (λ p q, (q <= p)%Q) probs ∧
    Forall (λ l, l ∈ dict_values (class_to_idx (loaded_flower_model 102))) labels ∧
    ∃ classes : list nat,
      NoDup classes ∧
      Forall2 (λ i p, class_probabilities (loaded_flower_model 102) (process_image 50%Z) !! i
                      = Some p) classes probs ∧
      Forall2 (λ i l, dict_get (class_to_idx (loaded_flower_model 102)) (Z.of_nat i) = Some l)
              classes labels ∧
      ∀ j p, class_probabilities (loaded_flower_model 102) (process_image 50%Z) !! j = Some p →
             j ∉ classes → Forall (λ q, (p <= q)%Q) probs.
Proof.
  assert (load_checkpoint "flowers.pth" (disk 102)
          = (loaded_disk 102, Ok (loaded_flower_model 102))) as Hload by reflexivity.
  assert (∀ i, (0 ≤ i < 102)%Z → is_Some (dict_get (class_to_idx (loaded_flower_model 102)) i))
    as Hcover by apply (covered_indices _ 102), flower_labels_cover.
  assert (fs (disk 102) !! "image.jpg" = Some (Picture 50%Z)) as Himage by reflexivity.
  split; [exact Hload|]. split; [exact Hcover|]. split; [exact Himage|].
  exact (predict_top5 (E := engine) "flowers.pth" (disk 102) (loaded_disk 102)
           (loaded_flower_model 102) (disk 102) "image.jpg" 50%Z false Hload Hcover Himage).
Defined.

(** What [predict] returns there: the classes nearest to 50. *)
Lemma predict_top5_flowers_value :
  (predict (disk 102) "image.jpg" false 5 (loaded_flower_model 102)).2
  = Ok ([1 # 8; 1 # 16; 1 # 16; 1 # 32; 1 # 32]%Q, ["51"; "50"; "52"; "49"; "53"]).
Proof. vm_compute. reflexivity. Qed.

(** ** More closed instances *)

(** The model loaded from [disk 3] has no frozen parameter. *)
Lemma loaded_model_is_not_frozen_flowers :
  load_checkpoint "flowers.pth" (disk 3) = (loaded_disk 3, Ok (loaded_flower_model 3)) ∧
  training (net (loaded_flower_model 3)) = true ∧
  ∀ name p, parameters (net (loaded_flower_model 3)) !! name = Some p →
            requires_grad p = true ∧ grad p = None.
Proof.
  assert (load_checkpoint "flowers.pth" (disk 3) = (loaded_disk 3, Ok (loaded_flower_model 3)))
    as Hload by reflexivity.
  split; [exact Hload|].
  exact (loaded_model_is_not_frozen (E := engine)
           "flowers.pth" (disk 3) (loaded_disk 3) (loaded_flower_model 3) Hload).
Defined.

(** The loss on the validation set of two batches. *)
Lemma validate_loss_flowers :
  validation_batches ≠ [] ∧
  Forall (λ b : list Z * list Z, length b.2 = length b.1) validation_batches ∧
  out_features (classifier (net (flower_model 3))) ≠ 0%nat ∧
  ∃ loss accuracy,
    (validate tt validation_batches false (flower_model 3)).2 = Ok (loss, accuracy) ∧
    (loss == sumQ (batch_loss tt (flower_model 3) <$> validation_batches)
             / Qnat (length validation_batches))%Q.
Proof.
  assert (validation_batches ≠ []) as Hne by done.
  assert (Forall (λ b : list Z * list Z, length b.2 = length b.1) validation_batches)
    as Hbatches by (by repeat constructor).
  assert (out_features (classifier (net (flower_model 3))) ≠ 0%nat) as Hwidth
    by (vm_compute; lia).
  split; [exact Hne|]. split; [exact Hbatches|]. split; [exact Hwidth|].
  exact (validate_loss (E := engine) tt validation_batches false (flower_model 3)
           Hne Hbatches Hwidth).
Defined.

(** Asking a network of 102 outputs for 103 classes. *)
Lemma predict_too_many_classes_flowers :
  fs (disk 3) !! "image.jpg" = Some (Picture 50%Z) ∧
  (out_features (classifier (net (loaded_flower_model 3))) < 103)%nat ∧
  (predict (disk 3) "image.jpg" false 103 (loaded_flower_model 3)).2
  = Raise (RuntimeError "invalid argument: k not in range for dimension").
Proof.
  assert (fs (disk 3) !! "image.jpg" = Some (Picture 50%Z)) as Himage by reflexivity.
  assert (out_features (classifier (net (loaded_flower_model 3))) < 103)%nat as Hk
    by (vm_compute; lia).
  split; [exact Himage|]. split; [exact Hk|].
  exact (predict_too_many_classes (E := engine)
           (disk 3) "image.jpg" 50%Z false 103 (loaded_flower_model 3) Himage Hk).
Defined.

(** The three most probable classes on a model of 102 labels. *)
Lemma predict_topk_pairs_flowers :
  fs (disk 102) !! "image.jpg" = Some (Picture 50%Z) ∧
  (3 ≤ out_features (classifier (net (loaded_flower_model 102))))%nat ∧
  (∀ i, (i < out_features (classifier (net (loaded_flower_model 102))))%nat →
        is_Some (dict_get (class_to_idx (loaded_flower_model 102)) (Z.of_nat i))) ∧
  ∃ probs labels (classes : list nat),
    (predict (disk 102) "image.jpg" true 3 (loaded_flower_model 102)).2 = Ok (probs, labels) ∧
    length probs = 3%nat ∧ length labels = 3%nat ∧ length classes = 3%nat ∧
    NoDup classes ∧
    StronglySorted (λ p q, (q <= p)%Q) probs ∧
    Forall2 (λ i p, class_probabilities (loaded_flower_model 102) (process_image 50%Z) !! i
                    = Some p) classes probs ∧
    Forall2 (λ i l, dict_get (class_to_idx (loaded_flower_model 102)) (Z.of_nat i) = Some l)
            classes labels ∧
    ∀ j p, class_probabilities (loaded_flower_model 102) (process_image 50%Z) !! j = Some p →
           j ∉ classes → Forall (λ q, (p <= q)%Q) probs.
Proof.
  assert (fs (disk 102) !! "image.jpg" = Some (Picture 50%Z)) as Himage by reflexivity.
  assert (3 ≤ out_features (classifier (net (loaded_flower_model 102))))%nat as Hk
    by (vm_compute; lia).
  assert (∀ i, (i < out_features (classifier (net (loaded_flower_model 102))))%nat →
               is_Some (dict_get (class_to_idx (loaded_flower_model 102)) (Z.of_nat i)))
    as Hcover.
  { intros i Hi. apply (covered_indices _ 102 flower_labels_cover).
    change (out_features _) with 102%nat in Hi. lia. }
  split; [exact Himage|]. split; [exact Hk|]. split; [exact Hcover|].
  exact (predict_topk_pairs (E := engine)
           (disk 102) "image.jpg" 50%Z true 3 (loaded_flower_model 102) Himage Hk Hcover).
Defined.


(** One epoch on one batch leaves the frozen first convolution as it was. *)
Lemma train_preserves_frozen_flowers :
  let s := mkTrainState world0 (flower_model 3) flower_optimizer in
  let p := mkParam (mkTensor [64; 3; 7; 7]%nat 7%Z) false None in
  parameters (net (ts_model s)) !! "features.conv0.weight" = Some p ∧
  requires_grad p = false ∧
  grad p = None ∧
  parameters (net (ts_model (train tt 1 [([3], [3])]%Z [] false s).1))
    !! "features.conv0.weight" = Some p.
Proof.
  intros s p.
  assert (parameters (net (ts_model s)) !! "features.conv0.weight" = Some p) as Hp
    by (vm_compute; reflexivity).
  assert (requires_grad p = false) as Hfrozen by reflexivity.
  assert (grad p = None) as Hgrad by reflexivity.
  split; [exact Hp|]. split; [exact Hfrozen|]. split; [exact Hgrad|].
  exact (train_preserves_frozen (E := engine) tt 1 [([3], [3])]%Z [] false s
           "features.conv0.weight" p Hp Hfrozen Hgrad).
Defined.


(** Forty epochs on one batch, with nothing to validate on. *)
Lemma train_empty_validation_loader_raises_flowers :
  let s := mkTrainState world0 (flower_model 3) flower_optimizer in
  any_requires_grad (net (ts_model s)) = true ∧
  (40 ≤ Z.to_nat 40 * length [([3], [3])]%Z)%nat ∧
  ∃ s1, train tt 40 [([3], [3])]%Z [] false s = (s1, Raise ZeroDivisionError) ∧
        ts_world s1 = ts_world s.
Proof.
  intros s.
  assert (any_requires_grad (net (ts_model s)) = true) as Hany by (vm_compute; reflexivity).
  assert (40 ≤ Z.to_nat 40 * length [([3], [3])]%Z)%nat as Hlt by (vm_compute; lia).
  split; [exact Hany|]. split; [exact Hlt|].
  exact (train_empty_validation_loader_raises (E := engine) tt 40 [([3], [3])]%Z
           false s Hany Hlt).
Defined.

(** Two labels on index 0: the later one is kept. *)
Lemma create_model_class_to_idx_last_label_flowers :
  let M := [("rose", 0%Z); ("tulip", 1%Z); ("briar", 0%Z)] in
  NoDup (dict_keys M) ∧
  ∃ w' created optimizer criterion,
    create_model "densenet121" M world0 = (w', Ok (created, optimizer, criterion)) ∧
    ∀ i, dict_get (class_to_idx created) i = fst <$> last (filter (λ kv, kv.2 = i) M).
Proof.
  intros M.
  assert (NoDup (dict_keys M)) as Hkeys by (by apply (bool_decide_unpack _); vm_compute).
  split; [exact Hkeys|].
  exact (create_model_class_to_idx_last_label (E := engine) "densenet121" M world0 Hkeys).
Defined.

(** The model left by one epoch of training can be checkpointed. *)
Lemma trained_model_loads_back_flowers :
  let s := mkTrainState world0 (flower_model 3) flower_optimizer in
  has_architecture (net (ts_model s)) ∧
  let trained := ts_model (train tt 1 [([3], [3])]%Z [] false s).1 in
  ∀ file_path o total_epochs w, ∃ w' loaded,
    load_checkpoint file_path (save_checkpoint file_path trained o total_epochs w).1
    = (w', Ok loaded) ∧
    state_dict (net loaded) = state_dict (net trained) ∧
    class_to_idx loaded = class_to_idx trained ∧
    ∀ world image_path gpu topk,
      (predict world image_path gpu topk loaded).2
      = (predict world image_path gpu topk trained).2.
Proof.
  intros s. split.
  - apply flower_model_architecture.
  - exact (trained_model_loads_back (E := engine) tt 1 [([3], [3])]%Z [] false s
             (flower_model_architecture 3)).
Defined.
